(** * Smite panel: transport selection, reconciliation and core reset

    A shallow embedding of the panel's node client
    ([panel/app/node_client.py]), of the core health and reset router
    ([panel/app/routers/core_health.py]) and of the startup and shutdown
    code of [panel/main.py], with the properties the specification states
    about them.

    Conventions of the embedding:
    - Python values stored in JSON columns (tunnel specs, node metadata,
      settings) are [pyval]s; a dict is a [gmap string pyval];
    - a Python exception is a constructor of [exn]; code that can raise
      returns a [result];
    - calls that leave the process (HTTP requests, process managers,
      sleeps) are recorded as events of a trace, and what the outside world
      answers is an oracle passed as an argument;
    - dict objects that the reset code copies and updates in place live in
      a heap of dicts, addressed by location. *)

From Stdlib Require Import ZArith String Ascii List Lia Bool DecimalString Decimal.
From stdpp Require Import base option gmap strings list.

Open Scope string_scope.
Open Scope Z_scope.

(** ** Python values and the operations the code applies to them *)

Module Py.

Inductive pyval : Type :=
| PNone
| PBool (b : bool)
| PInt (z : Z)
| PStr (s : string).

#[global] Instance pyval_eq_dec : EqDecision pyval.
Proof. solve_decision. Defined.

Abbreviation pydict := (gmap string pyval).

(** [bool(v)] *)
Definition truthy (v : pyval) : bool :=
  match v with
  | PNone => false
  | PBool b => b
  | PInt z => negb (z =? 0)
  | PStr s => negb (String.eqb s EmptyString)
  end.

(** [bool(d)] for a dict: empty dicts are false. *)
Definition dict_truthy (d : pydict) : bool := negb (bool_decide (d = ∅)).

(** [str(n)] for an int: decimal digits with a leading minus sign. *)
Definition str_of_Z (z : Z) : string := NilZero.string_of_int (Z.to_int z).

(** [str(v)], which is also what an f-string prints for [{v}]. *)
Definition py_str (v : pyval) : string :=
  match v with
  | PNone => "None"
  | PBool true => "True"
  | PBool false => "False"
  | PInt z => str_of_Z z
  | PStr s => s
  end.

(** [int(v)]; [None] stands for the [TypeError] or [ValueError] Python
    raises.  A string is read as an optional minus sign followed by
    decimal digits; Python also accepts surrounding blanks, a plus sign
    and underscores, which are not modelled. *)
Definition py_int (v : pyval) : option Z :=
  match v with
  | PNone => None
  | PBool b => Some (if b then 1 else 0)
  | PInt z => Some z
  | PStr s => Z.of_int <$> NilZero.int_of_string s
  end.

(** [d.get(k)] and [d.get(k, dflt)] *)
Definition get (d : pydict) (k : string) : pyval := default PNone (d !! k).
Definition get_or (d : pydict) (k : string) (dflt : pyval) : pyval :=
  default dflt (d !! k).

(** [a or b] *)
Definition py_or (a b : pyval) : pyval := if truthy a then a else b.

(** [v in [s1, s2, ...]] for a list of string literals *)
Definition in_strs (v : pyval) (l : list string) : bool :=
  match v with
  | PStr s => bool_decide (s ∈ l)
  | _ => false
  end.

(** First occurrence of [sep] in [s]: the text before it and the text
    after it.  [sep in s] is [is_Some (split_once sep s)];
    [s.split(sep, 1)[1]] is the second component and [s.split(sep)[0]]
    the first. *)
Fixpoint split_once (sep s : string) : option (string * string) :=
  if String.prefix sep s
  then Some (EmptyString, String.substring (String.length sep)
                   (String.length s - String.length sep) s)
  else match s with
       | EmptyString => None
       | String a s' =>
           match split_once sep s' with
           | Some (x, y) => Some (String a x, y)
           | None => None
           end
       end.

Definition contains (sep s : string) : bool :=
  match split_once sep s with Some _ => true | None => false end.

(** [s.rstrip(c)] for a one-character argument *)
Fixpoint rstrip (c : ascii) (s : string) : string :=
  match s with
  | EmptyString => EmptyString
  | String a s' =>
      match rstrip c s' with
      | EmptyString => if Ascii.eqb a c then EmptyString else String a EmptyString
      | r => String a r
      end
  end.

Fixpoint last_char (s : string) : option ascii :=
  match s with
  | EmptyString => None
  | String a EmptyString => Some a
  | String _ s' => last_char s'
  end.

(** The characters ["0"] to ["9"]. *)
Definition is_digit (c : ascii) : bool :=
  (48 <=? nat_of_ascii c)%nat && (nat_of_ascii c <=? 57)%nat.

End Py.
Export Py.

(** ** Exceptions and results *)

(** What [client.get]/[client.post] followed by [raise_for_status()] and
    [response.json()] can observe of a reply. *)
Inductive response_body : Type :=
| NotJson                      (* [response.json()] raises *)
| JsonObject (d : pydict)      (* a JSON object *)
| JsonOther (repr : string).   (* valid JSON that is not an object *)

Record response : Type := {
  status_code : Z;
  body : response_body;
  status_text : string   (* [str(e)] of the HTTPStatusError raised for it *)
}.

(** [response.is_success]: [raise_for_status()] raises otherwise. *)
Definition is_success (r : response) : bool :=
  (200 <=? status_code r) && (status_code r <? 300).

Inductive exn : Type :=
| RequestError (msg : string)          (* httpx.RequestError *)
| HTTPStatusError (r : response)       (* httpx.HTTPStatusError *)
| AttributeError (msg : string)
| TypeError (msg : string)
| ValueError (msg : string)
| OtherException (msg : string)        (* any other subclass of Exception *)
| HTTPException (code : Z) (detail : string)
| CancelledError.                      (* asyncio.CancelledError *)

(** [str(e)] *)
Definition exn_str (e : exn) : string :=
  match e with
  | RequestError m | AttributeError m | TypeError m | ValueError m
  | OtherException m => m
  | HTTPStatusError r => status_text r
  | HTTPException _ d => d
  | CancelledError => EmptyString
  end.

Inductive result (A : Type) : Type :=
| Ok (a : A)
| Raise (e : exn).
Arguments Ok {A} a.
Arguments Raise {A} e.

(** What a function returning parsed JSON hands back. *)
Inductive json : Type :=
| JDict (d : pydict)
| JNonDict (repr : string).

Definition error_dict (message : string) : pydict :=
  {[ "status" := PStr "error"; "message" := PStr message ]}.

(** ** The node client, [panel/app/node_client.py] *)

Module NodeClient.

Record Node : Type := {
  node_id : string;
  node_metadata : option pydict;   (* nullable JSON column *)
  fingerprint : string
}.

(** The two tables the client reads. *)
Record Db : Type := {
  db_nodes : gmap string Node;
  db_settings : gmap string (option pydict)   (* Settings.key -> Settings.value *)
}.

Inductive http_outcome : Type :=
| Responded (r : response)
| ConnFailed (msg : string)   (* the client raises httpx.RequestError(msg) *)
| Crashed (msg : string).     (* the client raises another Exception *)

(** The network: what a GET of a URL gives, and what the POST of attempt
    number [n] of the current call gives. *)
Record Net : Type := {
  net_get : string -> http_outcome;
  net_post : nat -> string -> pydict -> http_outcome
}.

Inductive event : Type :=
| EvGet (url : string) (timeout_ms : Z)
| EvPost (url : string) (data : pydict) (timeout_ms : Z)
| EvSleep (ms : Z).

(** [self.timeout = httpx.Timeout(30.0)] *)
Definition timeout : Z := 30000.

Definition _get_frp_settings (db : Db) : option pydict :=
  match db_settings db !! "frp" with
  | Some (Some value) =>
      if dict_truthy value && truthy (get value "enabled")
      then Some value else None
  | _ => None
  end.

(** The direct branch of [_get_node_address]: lines 50-54. *)
Definition direct_address (node : Node) : result (string * bool) :=
  let node_address :=
    match node_metadata node with
    | Some md =>
        if dict_truthy md
        then get_or md "api_address" (PStr "http://localhost:8888")
        else PStr "http://localhost:8888"
    | None => PStr "http://localhost:8888"
    end in
  match node_address with
  | PStr a =>
      if String.prefix "http" a then Ok (a, false)
      else Ok ("http://" +:+ a, false)
  | _ => Raise (AttributeError "object has no attribute 'startswith'")
  end.

Definition _get_node_address (db : Db) (node : Node) : result (string * bool) :=
  let frp_settings := _get_frp_settings db in
  let frp_on :=
    match frp_settings with
    | Some s => dict_truthy s && truthy (get s "enabled")
    | None => false
    end in
  if frp_on then
    let frp_remote_port :=
      match node_metadata node with
      | Some md => if dict_truthy md then get md "frp_remote_port" else PNone
      | None => PNone
      end in
    if truthy frp_remote_port
    then Ok ("http://127.0.0.1:" +:+ py_str frp_remote_port, true)
    else direct_address node
  else direct_address node.

(** [response.raise_for_status(); return response.json()] *)
Definition read_reply (o : http_outcome) : result json :=
  match o with
  | ConnFailed msg => Raise (RequestError msg)
  | Crashed msg => Raise (OtherException msg)
  | Responded r =>
      if is_success r then
        match body r with
        | JsonObject d => Ok (JDict d)
        | JsonOther repr => Ok (JNonDict repr)
        | NotJson => Raise (ValueError "Expecting value")
        end
      else Raise (HTTPStatusError r)
  end.

(** The handler of [except httpx.HTTPStatusError], lines 107-112 and
    138-143: the detail is the reply's ["detail"] field when the reply
    decodes to an object, the exception text otherwise. *)
Definition error_detail (r : response) : string :=
  match body r with
  | JsonObject d => py_str (get_or d "detail" (PStr (status_text r)))
  | _ => status_text r
  end.

Definition node_error (r : response) : pydict :=
  error_dict ("Node error (HTTP " +:+ str_of_Z (status_code r) +:+ "): "
              +:+ error_detail r).

(** The two outer handlers shared by [send_to_node] and
    [get_tunnel_status]: [except httpx.HTTPStatusError] and
    [except Exception]. *)
Definition outer_handlers (r : result json) : result json :=
  match r with
  | Ok v => Ok v
  | Raise (HTTPStatusError resp) => Ok (JDict (node_error resp))
  | Raise e => Ok (JDict (error_dict ("Error: " +:+ exn_str e)))
  end.

(** The [for attempt in range(max_retries)] loop, lines 87-106; [todo]
    is what is left of [range(max_retries)]. *)
Fixpoint retry_loop (net : Net) (url : string) (data : pydict)
    (using_frp : bool) (max_retries : Z) (todo : list nat)
    (last_error : pyval) : list event * result json :=
  match todo with
  | [] => ([], Ok (JDict (error_dict ("Network error: " +:+ py_str last_error))))
  | attempt :: rest =>
      match read_reply (net_post net attempt url data) with
      | Raise (RequestError msg) =>
          if Z.of_nat attempt <? max_retries - 1 then
            let '(tr, r) :=
              retry_loop net url data using_frp max_retries rest (PStr msg) in
            (EvPost url data timeout :: EvSleep 1000 :: tr, r)
          else
            let error_msg := "Network error: " +:+ msg in
            let error_msg :=
              if using_frp
              then error_msg +:+ " (FRP tunnel may not be ready, tried "
                     +:+ str_of_Z max_retries +:+ " times)"
              else error_msg in
            ([EvPost url data timeout], Ok (JDict (error_dict error_msg)))
      | r => ([EvPost url data timeout], r)
      end
  end.

Definition max_retries_of (using_frp : bool) : Z := if using_frp then 3 else 1.

Definition send_to_node (db : Db) (net : Net)
    (nid endpoint : string) (data : pydict) : list event * result json :=
  match db_nodes db !! nid with
  | None => ([], Ok (JDict (error_dict ("Node " +:+ nid +:+ " not found"))))
  | Some node =>
      match _get_node_address db node with
      | Raise e => ([], Raise e)
      | Ok (node_address, using_frp) =>
          let url := rstrip "/" node_address +:+ endpoint in
          let probe :=
            if using_frp
            then [EvGet (rstrip "/" node_address +:+ "/api/agent/status") 5000]
            else [] in
          let max_retries := max_retries_of using_frp in
          let '(tr, r) :=
            retry_loop net url data using_frp max_retries
              (seq 0 (Z.to_nat max_retries)) PNone in
          ((probe ++ tr)%list, outer_handlers r)
      end
  end.

Definition get_tunnel_status (db : Db) (net : Net)
    (nid tunnel_id : string) : list event * result json :=
  match db_nodes db !! nid with
  | None => ([], Ok (JDict (error_dict ("Node " +:+ nid +:+ " not found"))))
  | Some node =>
      match _get_node_address db node with
      | Raise e => ([], Raise e)
      | Ok (node_address, using_frp) =>
          let url := rstrip "/" node_address +:+ "/api/agent/status" in
          let r :=
            match read_reply (net_get net url) with
            | Raise (RequestError msg) =>
                Ok (JDict (error_dict ("Network error: " +:+ msg)))
            | r => outer_handlers r
            end in
          ([EvGet url timeout], r)
      end
  end.

Definition apply_tunnel (db : Db) (net : Net)
    (nid : string) (tunnel_data : pydict) : list event * result json :=
  send_to_node db net nid "/api/agent/tunnels/apply" tunnel_data.

End NodeClient.

(** ** Runtime shared by the reset router and the startup code *)

Module Panel.

Definition Node := NodeClient.Node.
Definition node_id := NodeClient.node_id.
Definition node_metadata := NodeClient.node_metadata.
Definition fingerprint := NodeClient.fingerprint.

(** Dict objects are heap cells. *)
Definition loc : Type := positive.

Record Tunnel : Type := {
  t_id : string;
  t_core : string;
  t_type : string;
  t_status : string;
  t_node_id : option string;   (* nullable column *)
  t_spec : loc                 (* the dict object behind [tunnel.spec] *)
}.

(** A backend process manager ([app.rathole_server] and the like are not
    part of the sources at hand): each call is recorded, and the manager
    decides whether the call raises. *)
Record Manager : Type := {
  stop_server : string -> bool;             (* [true]: the call raises *)
  start_server : string -> pydict -> bool;  (* [true]: the call raises *)
  get_active_servers : result (list string)
}.

(** [app.state]: [getattr(app.state, name, None)] gives [None] for a
    manager that was never registered. *)
Record AppState : Type := {
  backhaul_manager : option Manager;
  rathole_server_manager : option Manager;
  chisel_server_manager : option Manager;
  frp_server_manager : option Manager
}.

(** What the code reads from outside the store: the process environment,
    [settings.panel_domain], [app.utils.is_valid_ipv6_address] and the
    [Hysteria2Client] (neither of the last two is among the sources). *)
Record Env : Type := {
  getenv : string -> pyval;                 (* [PNone] when unset *)
  panel_domain : pyval;
  is_valid_ipv6_address : pyval -> bool;
  client_apply : string -> string -> pydict -> bool;   (* [true]: raises *)
  client_send : string -> string -> pydict -> result json;
  client_status : string -> result pydict
}.

Inductive event : Type :=
| EvStop (core tunnel_id : string)
| EvStart (core tunnel_id : string) (args : pydict)
| EvSleep (ms : Z)
| EvApply (node tunnel_id core : string) (type : option string) (spec : pydict)
| EvCleanup (manager : string)
| EvCancel
| EvAwait
| EvH2Stop.

Record st : Type := {
  st_heap : gmap loc pydict;
  st_nodes : gmap string Node;
  st_log : list event
}.

(** State and exceptions. *)
Definition M (A : Type) : Type := st -> result A * st.

Definition ret {A} (a : A) : M A := fun s => (Ok a, s).

Definition bind {A B} (m : M A) (f : A -> M B) : M B :=
  fun s =>
    match m s with
    | (Ok a, s') => f a s'
    | (Raise e, s') => (Raise e, s')
    end.

Definition raise {A} (e : exn) : M A := fun s => (Raise e, s).

(** [try: m  except Exception as e: logger.error(...)] *)
Definition try_except (m : M unit) : M unit :=
  fun s =>
    match m s with
    | (Ok a, s') => (Ok a, s')
    | (Raise _, s') => (Ok tt, s')
    end.

Definition lift {A} (r : result A) : M A := fun s => (r, s).

Definition emit (e : event) : M unit :=
  fun s => (Ok tt, {| st_heap := st_heap s; st_nodes := st_nodes s;
                      st_log := (st_log s ++ [e])%list |}).

Definition get_heap : M (gmap loc pydict) := fun s => (Ok (st_heap s), s).

Definition put_heap (h : gmap loc pydict) : M unit :=
  fun s => (Ok tt, {| st_heap := h; st_nodes := st_nodes s; st_log := st_log s |}).

Definition get_nodes : M (gmap string Node) := fun s => (Ok (st_nodes s), s).

Definition put_nodes (n : gmap string Node) : M unit :=
  fun s => (Ok tt, {| st_heap := st_heap s; st_nodes := n; st_log := st_log s |}).

End Panel.
Export Panel.

Declare Scope py_scope.
Delimit Scope py_scope with py.
Notation "'let!' x ':=' c 'in' k" := (bind c (fun x => k))
  (at level 10, x name, c at level 100, k at level 200) : py_scope.
Notation "c >> k" := (bind c (fun _ => k))
  (at level 100, k at level 200, right associativity) : py_scope.
Open Scope py_scope.

(** Sequencing of pure computations that can raise. *)
Definition rbind {A B} (r : result A) (f : A -> result B) : result B :=
  match r with
  | Ok a => f a
  | Raise e => Raise e
  end.
Notation "'let?' x ':=' c 'in' k" := (rbind c (fun x => k))
  (at level 10, x name, c at level 100, k at level 200) : py_scope.

(** [int(v)] as a result. *)
Definition to_int (v : pyval) : result Z :=
  match py_int v with
  | Some z => Ok z
  | None => Raise (ValueError "invalid literal for int()")
  end.

Module Runtime.

(** Reading a dict object. *)
Definition deref (l : loc) : M pydict :=
  let! h := get_heap in ret (default ∅ (h !! l)).

(** Allocation of a new dict object: a dict display [{...}]. *)
Definition dict_new (d : pydict) : M loc :=
  let! h := get_heap in
  let l := fresh (dom h) in
  put_heap (<[l := d]> h) >> ret l.

(** [d.copy()] *)
Definition dict_copy (l : loc) : M loc :=
  let! d := deref l in dict_new d.

(** [d[k] = v] *)
Definition dict_set (l : loc) (k : string) (v : pyval) : M unit :=
  let! h := get_heap in put_heap (alter (<[k := v]>) l h).

Fixpoint for_each {A} (l : list A) (body : A -> M unit) : M unit :=
  match l with
  | [] => ret tt
  | x :: rest => body x >> for_each rest body
  end.

(** [int(v)] *)
Definition int_ (v : pyval) : M Z := lift (to_int v).

(** [await asyncio.sleep(seconds)] *)
Definition sleep (ms : Z) : M unit := emit (EvSleep ms).

Definition call_stop (core : string) (m : Manager) (tid : string) : M unit :=
  emit (EvStop core tid) >>
  if stop_server m tid then raise (OtherException "stop_server failed") else ret tt.

Definition call_start (core : string) (m : Manager) (tid : string)
    (args : pydict) : M unit :=
  emit (EvStart core tid args) >>
  if start_server m tid args then raise (OtherException "start_server failed")
  else ret tt.

(** [select(Tunnel).where(Tunnel.status == "active")] *)
Definition active (tunnels : list Tunnel) : list Tunnel :=
  filter (fun t => t_status t = "active") tunnels.

(** [select(Tunnel).where(Tunnel.core == core, Tunnel.status == "active")] *)
Definition active_of (core : string) (tunnels : list Tunnel) : list Tunnel :=
  filter (fun t => t_core t = core ∧ t_status t = "active") tunnels.

(** [bool(t.node_id)] *)
Definition has_node (t : Tunnel) : bool :=
  match t_node_id t with
  | Some n => negb (String.eqb n EmptyString)
  | None => false
  end.

(** [set(t.node_id for t in active_tunnels if t.node_id)] *)
Definition node_ids_of (ts : list Tunnel) : gset string :=
  list_to_set (omap (fun t => if has_node t then t_node_id t else None) ts).

(** [node.node_metadata.get(k, dflt)]; the column is nullable. *)
Definition metadata_get (node : Node) (k : string) (dflt : pyval) : result pyval :=
  match node_metadata node with
  | Some md => Ok (get_or md k dflt)
  | None => Raise (AttributeError "'NoneType' object has no attribute 'get'")
  end.

(** The host of a truthy [panel_address]:
    [if "://" in a: a = a.split("://", 1)[1]] and then
    [a.split(":")[0] if ":" in a else a]. *)
Definition host_of (panel_address : pyval) : result string :=
  match panel_address with
  | PStr a =>
      let a := match split_once "://" a with Some (_, rest) => rest | None => a end in
      Ok (match split_once ":" a with Some (h, _) => h | None => a end)
  | _ => Raise (TypeError "argument is not iterable")
  end.

(** [os.getenv("PANEL_PUBLIC_IP") or os.getenv("PANEL_IP")] when it is
    usable, that is truthy and not in the list of local addresses. *)
Definition public_ip (env : Env) : option pyval :=
  let ip := py_or (getenv env "PANEL_PUBLIC_IP") (getenv env "PANEL_IP") in
  if truthy ip && negb (in_strs ip ["localhost"; "127.0.0.1"; "::1"; "0.0.0.0"; EmptyString])
  then Some ip else None.

Definition local_hosts : list string := ["localhost"; "127.0.0.1"; "::1"].

End Runtime.
Export Runtime.

(** ** Core health and reset, [panel/app/routers/core_health.py] *)

Module CoreHealth.

Definition CORES : list string := ["backhaul"; "rathole"; "chisel"; "frp"].

(** Datetimes are counted in microseconds, the resolution of
    [datetime]; [minutes m] is [timedelta(minutes=m)]. *)
Definition minutes (m : Z) : Z := m * 60000000.

Record CoreResetConfig : Type := {
  core : string;
  enabled : bool;
  interval_minutes : Z;
  last_reset : option Z;
  next_reset : option Z;
  updated_at : option Z
}.

Record ResetConfigUpdate : Type := {
  upd_enabled : option bool;
  upd_interval_minutes : option Z
}.

(** The manager [getattr(app.state, "<core>_manager", None)] finds. *)
Definition manager_of (app : AppState) (c : string) : option Manager :=
  if decide (c = "backhaul") then backhaul_manager app
  else if decide (c = "rathole") then rathole_server_manager app
  else if decide (c = "chisel") then chisel_server_manager app
  else if decide (c = "frp") then frp_server_manager app
  else None.

(** *** Health *)

(** Lines 54-110, the same text for each of the four cores. *)
Definition panel_health (manager : option Manager)
    (active_tunnels : list Tunnel) : string * bool :=
  match manager with
  | Some m =>
      match get_active_servers m with
      | Raise _ => ("error", false)
      | Ok active_servers =>
          if (0 <? length active_tunnels)%nat then
            let panel_healthy := (0 <? length active_servers)%nat in
            (if panel_healthy then "healthy" else "error", panel_healthy)
          else ("healthy", true)
      end
  | None =>
      (if (0 <? length active_tunnels)%nat then "error" else "healthy",
       (length active_tunnels =? 0)%nat)
  end.

Record NodeStatus : Type := {
  ns_healthy : bool;
  ns_status : string;
  ns_active_tunnels : nat
}.

Record CoreHealthResponse : Type := {
  h_core : string;
  panel_status : string;
  panel_healthy : bool;
  nodes_status : gmap string NodeStatus
}.

(** Lines 121-141 for one node id. *)
Definition node_health (env : Env) (active_tunnels : list Tunnel)
    (nid : string) : NodeStatus :=
  let '(healthy, status) :=
    match client_status env nid with
    | Ok response =>
        if dict_truthy response
           && bool_decide (get response "status" = PStr "ok")
        then (true, "connected") else (false, "disconnected")
    | Raise _ => (false, "error")
    end in
  {| ns_healthy := healthy; ns_status := status;
     ns_active_tunnels :=
       length (filter (fun t => t_node_id t = Some nid) active_tunnels) |}.

Definition core_health (app : AppState) (env : Env) (tunnels : list Tunnel)
    (nodes : gmap string Node) (c : string) : CoreHealthResponse :=
  let active_tunnels := active_of c tunnels in
  let '(status, healthy) := panel_health (manager_of app c) active_tunnels in
  let node_ids := node_ids_of active_tunnels in
  {| h_core := c; panel_status := status; panel_healthy := healthy;
     nodes_status :=
       foldl (fun acc nid =>
                match nodes !! nid with
                | None => acc
                | Some _ => <[nid := node_health env active_tunnels nid]> acc
                end) ∅ (elements node_ids) |}.

Definition get_core_health (app : AppState) (env : Env)
    (tunnels : list Tunnel) (nodes : gmap string Node)
    : list CoreHealthResponse :=
  map (core_health app env tunnels nodes) CORES.

(** *** Reset timer configuration *)

Definition default_config (c : string) : CoreResetConfig :=
  {| core := c; enabled := false; interval_minutes := 10;
     last_reset := None; next_reset := None; updated_at := None |}.

(** [update_reset_config]: the committed row and the table after the
    commit, or the HTTPException raised before anything is committed.
    [now] is what [datetime.utcnow()] reads. *)
Definition update_reset_config (configs : gmap string CoreResetConfig)
    (c : string) (config_update : ResetConfigUpdate) (now : Z)
    : result (CoreResetConfig * gmap string CoreResetConfig) :=
  if negb (bool_decide (c ∈ CORES))
  then Raise (HTTPException 400 ("Invalid core: " +:+ c))
  else
    let config := default (default_config c) (configs !! c) in
    let enabled1 := default (enabled config) (upd_enabled config_update) in
    let checked_interval :=
      match upd_interval_minutes config_update with
      | Some i =>
          if i <? 1
          then Raise (HTTPException 400 "Interval must be at least 1 minute")
          else Ok i
      | None => Ok (interval_minutes config)
      end in
    match checked_interval with
    | Raise e => Raise e
    | Ok interval1 =>
        let next1 :=
          if enabled1 && negb (interval1 =? 0) then
            match last_reset config with
            | Some lr => Some (lr + minutes interval1)
            | None => Some (now + minutes interval1)
            end
          else None in
        let config' :=
          {| core := core config; enabled := enabled1;
             interval_minutes := interval1;
             last_reset := last_reset config; next_reset := next1;
             updated_at := Some now |} in
        Ok (config', <[c := config']> configs)
    end.

(** *** Reset *)

(** Lines 266-272. *)
Definition restart_backhaul (m : Manager) (tunnel : Tunnel) : M unit :=
  try_except (
    call_stop "backhaul" m (t_id tunnel) >>
    sleep 500 >>
    let! spec := deref (t_spec tunnel) in
    call_start "backhaul" m (t_id tunnel)
      (if dict_truthy spec then spec else ∅)).

(** Lines 277-291. *)
Definition restart_rathole (m : Manager) (tunnel : Tunnel) : M unit :=
  try_except (
    let! spec := deref (t_spec tunnel) in
    let remote_addr := get spec "remote_addr" in
    let token := get spec "token" in
    let proxy_port := py_or (get spec "remote_port") (get spec "listen_port") in
    if truthy remote_addr && truthy token && truthy proxy_port then
      call_stop "rathole" m (t_id tunnel) >>
      sleep 500 >>
      let! p := int_ proxy_port in
      call_start "rathole" m (t_id tunnel)
        {[ "remote_addr" := remote_addr; "token" := token;
           "proxy_port" := PInt p ]}
    else ret tt).

(** Lines 296-312. *)
Definition restart_chisel (m : Manager) (tunnel : Tunnel) : M unit :=
  try_except (
    let! spec := deref (t_spec tunnel) in
    let server_port := py_or (get spec "server_port") (get spec "listen_port") in
    let auth := get spec "auth" in
    let fingerprint := get spec "fingerprint" in
    let use_ipv6 := get_or spec "use_ipv6" (PBool false) in
    if truthy server_port then
      call_stop "chisel" m (t_id tunnel) >>
      sleep 500 >>
      let! p := int_ server_port in
      call_start "chisel" m (t_id tunnel)
        {[ "server_port" := PInt p; "auth" := auth;
           "fingerprint" := fingerprint;
           "use_ipv6" := PBool (truthy use_ipv6) ]}
    else ret tt).

(** Lines 317-329. *)
Definition restart_frp (m : Manager) (tunnel : Tunnel) : M unit :=
  try_except (
    let! spec := deref (t_spec tunnel) in
    let bind_port := get_or spec "bind_port" (PInt 7000) in
    let token := get spec "token" in
    if truthy bind_port then
      call_stop "frp" m (t_id tunnel) >>
      sleep 500 >>
      let! p := int_ bind_port in
      call_start "frp" m (t_id tunnel)
        {[ "bind_port" := PInt p; "token" := token ]}
    else ret tt).

(** Lines 263-329: the panel-side restart of every active tunnel. *)
Definition restart_local (app : AppState) (c : string)
    (active_tunnels : list Tunnel) : M unit :=
  let with_manager (m : option Manager) (body : Manager -> Tunnel -> M unit) :=
    match m with
    | Some m => for_each active_tunnels (body m)
    | None => ret tt
    end in
  if decide (c = "backhaul") then
    with_manager (backhaul_manager app) restart_backhaul
  else if decide (c = "rathole") then
    with_manager (rathole_server_manager app) restart_rathole
  else if decide (c = "chisel") then
    with_manager (chisel_server_manager app) restart_chisel
  else if decide (c = "frp") then
    with_manager (frp_server_manager app) restart_frp
  else ret tt.

(** Lines 349-360: the dict sent to the node for a rathole tunnel. *)
Definition rathole_spec (spec : pydict) : result pydict :=
  let? remote_addr :=
    match get_or spec "remote_addr" (PStr EmptyString) with
    | PStr a =>
        Ok (match split_once ":" a with Some (h, _) => h | None => a end)
    | _ => Raise (TypeError "argument is not iterable")
    end in
  let remote_port := py_or (get spec "remote_port") (get spec "listen_port") in
  let token := get spec "token" in
  let local_addr := get_or spec "local_addr" (PStr "127.0.0.1") in
  let local_port := get spec "local_port" in
  Ok ({[ "remote_addr" := PStr (remote_addr +:+ ":" +:+ py_str remote_port);
         "token" := token;
         "local_addr" := local_addr;
         "local_port" := local_port ]} : pydict).

(** [f"http://[{host}]:{port}"] for an IPv6 literal,
    [f"http://{host}:{port}"] otherwise. *)
Definition server_url_of (env : Env) (panel_host : pyval) (port : Z) : string :=
  if is_valid_ipv6_address env panel_host
  then "http://[" +:+ py_str panel_host +:+ "]:" +:+ str_of_Z port
  else "http://" +:+ py_str panel_host +:+ ":" +:+ str_of_Z port.

(** Lines 372-389: the host the node is told to dial. *)
Definition reset_panel_host (env : Env) (node : Node) (spec : pydict)
    : result pyval :=
  let panel_host := get spec "panel_host" in
  let? panel_host :=
    if negb (truthy panel_host) then
      let? panel_address := metadata_get node "panel_address" (PStr EmptyString) in
      if truthy panel_address
      then let? h := host_of panel_address in Ok (PStr h)
      else Ok panel_host
    else Ok panel_host in
  if negb (truthy panel_host) || in_strs panel_host local_hosts then
    match public_ip env with
    | Some ip => Ok ip
    | None => Ok (PStr "127.0.0.1")
    end
  else Ok panel_host.

(** Lines 362-411: the dict sent to the node for a chisel tunnel, or
    [None] when the tunnel is skipped for lack of a listen port. *)
Definition chisel_spec (env : Env) (node : Node) (spec : pydict)
    : result (option pydict) :=
  let listen_port :=
    py_or (py_or (get spec "listen_port") (get spec "remote_port"))
          (get spec "server_port") in
  if truthy listen_port then
    let server_control_port := get spec "control_port" in
    let? server_control_port :=
      if truthy server_control_port then to_int server_control_port
      else let? p := to_int listen_port in Ok (p + 10000) in
    let? reverse_port := to_int listen_port in
    let? panel_host := reset_panel_host env node spec in
    let server_url := server_url_of env panel_host server_control_port in
    let auth := get spec "auth" in
    let fingerprint := get spec "fingerprint" in
    let local_addr := get_or spec "local_addr" (PStr "127.0.0.1") in
    let local_port := get spec "local_port" in
    let reverse_spec :=
      get_or spec "reverse_spec"
        (PStr ("R:" +:+ str_of_Z reverse_port +:+ ":" +:+ py_str local_addr
               +:+ ":" +:+ py_str local_port)) in
    Ok (Some ({[ "server_url" := PStr server_url;
                 "reverse_spec" := reverse_spec;
                 "auth" := auth;
                 "fingerprint" := fingerprint ]} : pydict))
  else Ok None.

(** Lines 419-445 (and lines 311-339 of main.py, the same text): the FRP
    overlay written into [spec_for_node]; [false] stands for [continue]. *)
Definition frp_overlay (env : Env) (node : Node) (spec_for_node : loc)
    : M bool :=
  let! panel_address := lift (metadata_get node "panel_address" (PStr EmptyString)) in
  if truthy panel_address then
    let! panel_host := lift (host_of panel_address) in
    let server_addr :=
      if is_valid_ipv6_address env (PStr panel_host)
      then "[" +:+ panel_host +:+ "]" else panel_host in
    let! d := deref spec_for_node in
    let bind_port := get_or d "bind_port" (PInt 7000) in
    dict_set spec_for_node "server_addr" (PStr server_addr) >>
    let! p := int_ bind_port in
    dict_set spec_for_node "server_port" (PInt p) >>
    ret true
  else
    match public_ip env with
    | Some ip => dict_set spec_for_node "server_addr" ip >> ret true
    | None => ret false
    end.

(** Lines 418-445: the FRP branch works on a copy of its own. *)
Definition frp_spec (env : Env) (node : Node) (tunnel : Tunnel)
    : M (option loc) :=
  let! spec_for_node := dict_copy (t_spec tunnel) in
  let! ok := frp_overlay env node spec_for_node in
  ret (if ok then Some spec_for_node else None).

(** Lines 344-445: the dict object to send, or [None] for [continue]. *)
Definition node_spec (env : Env) (c : string) (node : Node) (tunnel : Tunnel)
    : M (option loc) :=
  let! spec := deref (t_spec tunnel) in
  let! spec_for_node := dict_copy (t_spec tunnel) in
  if decide (c = "backhaul") then ret (Some spec_for_node)
  else if decide (c = "rathole") then
    let! fields := lift (rathole_spec spec) in
    let! l := dict_new fields in
    ret (Some l)
  else if decide (c = "chisel") then
    let! o := lift (chisel_spec env node spec) in
    match o with
    | Some fields => let! l := dict_new fields in ret (Some l)
    | None => ret None
    end
  else if decide (c = "frp") then frp_spec env node tunnel
  else ret (Some spec_for_node).

(** Lines 342-457: one tunnel of one node. *)
Definition reset_node_tunnel (env : Env) (c nid : string) (node : Node)
    (tunnel : Tunnel) : M unit :=
  try_except (
    let! o := node_spec env c node tunnel in
    match o with
    | None => ret tt
    | Some l =>
        let! d := deref l in
        emit (EvApply nid (t_id tunnel) c None d) >>
        (if client_apply env nid (t_id tunnel) d
         then raise (OtherException "apply_tunnel failed") else ret tt) >>
        sleep 500
    end).

Definition _reset_core (app : AppState) (env : Env) (tunnels : list Tunnel)
    (c : string) : M unit :=
  let active_tunnels := active_of c tunnels in
  restart_local app c active_tunnels >>
  let node_ids := node_ids_of active_tunnels in
  for_each (elements node_ids) (fun nid =>
    let! nodes := get_nodes in
    match nodes !! nid with
    | None => ret tt
    | Some node =>
        for_each (filter (fun t => t_node_id t = Some nid) active_tunnels)
                 (reset_node_tunnel env c nid node)
    end).

(** Lines 241-245: what a manual reset writes into the row. *)
Definition bookkeeping (now : Z) (config : CoreResetConfig) : CoreResetConfig :=
  {| core := core config; enabled := enabled config;
     interval_minutes := interval_minutes config;
     last_reset := Some now;
     next_reset :=
       if enabled config && negb (interval_minutes config =? 0)
       then Some (now + minutes (interval_minutes config))
       else next_reset config;
     updated_at := updated_at config |}.

Definition success (c : string) : pydict :=
  {[ "status" := PStr "success";
     "message" := PStr (c +:+ " reset successfully") ]}.

(** [manual_reset_core]: the reply, the table of reset configurations
    after the call and the state; [now] is what [datetime.utcnow()] reads
    on line 242. *)
Definition manual_reset_core (app : AppState) (env : Env)
    (tunnels : list Tunnel) (configs : gmap string CoreResetConfig)
    (c : string) (now : Z) (s : st)
    : result pydict * gmap string CoreResetConfig * st :=
  if negb (bool_decide (c ∈ CORES))
  then (Raise (HTTPException 400 ("Invalid core: " +:+ c)), configs, s)
  else
    match _reset_core app env tunnels c s with
    | (Ok _, s') =>
        (Ok (success c),
         match configs !! c with
         | Some config => <[c := bookkeeping now config]> configs
         | None => configs
         end, s')
    | (Raise e, s') => (Raise (HTTPException 500 (exn_str e)), configs, s')
    end.

End CoreHealth.


(** ** Startup, scheduler and shutdown, [panel/main.py] *)

Module Main.
Import CoreHealth.

(** The module-level manager singletons imported by main.py. *)
Record Managers : Type := {
  rathole : Manager;
  backhaul : Manager;
  chisel : Manager;
  frp : Manager
}.

(** *** Panel-side restore loops *)

(** Lines 147-174. *)
Definition _restore_rathole_servers (ms : Managers) (tunnels : list Tunnel)
    : M unit :=
  try_except (
    for_each (active tunnels) (fun tunnel =>
      if negb (bool_decide (t_core tunnel = "rathole")) then ret tt else
      let! spec := deref (t_spec tunnel) in
      let remote_addr := get spec "remote_addr" in
      let token := get spec "token" in
      let proxy_port := py_or (get spec "remote_port") (get spec "listen_port") in
      if negb (truthy remote_addr) || negb (truthy token)
         || negb (truthy proxy_port)
      then ret tt else
      let use_ipv6 := get_or spec "use_ipv6" (PBool false) in
      let! p := int_ proxy_port in
      call_start "rathole" (rathole ms) (t_id tunnel)
        {[ "remote_addr" := remote_addr; "token" := token;
           "proxy_port" := PInt p;
           "use_ipv6" := PBool (truthy use_ipv6) ]})).

(** Lines 177-197. *)
Definition _restore_backhaul_servers (ms : Managers) (tunnels : list Tunnel)
    : M unit :=
  try_except (
    for_each (active tunnels) (fun tunnel =>
      if negb (bool_decide (t_core tunnel = "backhaul")) then ret tt else
      try_except (
        let! spec := deref (t_spec tunnel) in
        call_start "backhaul" (backhaul ms) (t_id tunnel)
          (if dict_truthy spec then spec else ∅)))).

(** Lines 200-239. *)
Definition _restore_chisel_servers (ms : Managers) (tunnels : list Tunnel)
    : M unit :=
  try_except (
    for_each (active tunnels) (fun tunnel =>
      if negb (bool_decide (t_core tunnel = "chisel")) then ret tt else
      let! spec := deref (t_spec tunnel) in
      let listen_port :=
        py_or (py_or (get spec "listen_port") (get spec "remote_port"))
              (get spec "server_port") in
      let auth := get spec "auth" in
      let fingerprint := get spec "fingerprint" in
      if negb (truthy listen_port) then ret tt else
      try_except (
        let use_ipv6 := get_or spec "use_ipv6" (PBool false) in
        let server_control_port := get spec "control_port" in
        let! server_control_port :=
          if truthy server_control_port then int_ server_control_port
          else let! p := int_ listen_port in ret (p + 10000) in
        call_start "chisel" (chisel ms) (t_id tunnel)
          {[ "server_port" := PInt server_control_port; "auth" := auth;
             "fingerprint" := fingerprint;
             "use_ipv6" := PBool (truthy use_ipv6) ]}))).

(** Lines 242-272. *)
Definition _restore_frp_servers (ms : Managers) (tunnels : list Tunnel)
    : M unit :=
  try_except (
    for_each (active tunnels) (fun tunnel =>
      if negb (bool_decide (t_core tunnel = "frp")) then ret tt else
      let! spec := deref (t_spec tunnel) in
      let bind_port := get_or spec "bind_port" (PInt 7000) in
      let token := get spec "token" in
      if negb (truthy bind_port) then ret tt else
      try_except (
        let! p := int_ bind_port in
        call_start "frp" (frp ms) (t_id tunnel)
          {[ "bind_port" := PInt p; "token" := token ]}))).

(** *** Node-side restore *)

(** Lines 351-373: the host the node is told to dial. *)
Definition restore_panel_host (env : Env) (node : Node) (spec : pydict)
    : result pyval :=
  let panel_host := get spec "panel_host" in
  let? panel_host :=
    if negb (truthy panel_host) then
      let? panel_address := metadata_get node "panel_address" (PStr EmptyString) in
      if truthy panel_address
      then let? h := host_of panel_address in Ok (PStr h)
      else Ok panel_host
    else Ok panel_host in
  let panel_host :=
    if negb (truthy panel_host) || in_strs panel_host local_hosts then
      if truthy (panel_domain env) then panel_domain env else panel_host
    else panel_host in
  if negb (truthy panel_host) || in_strs panel_host local_hosts then
    let? ip := metadata_get node "ip_address" PNone in
    let node_ip := py_or ip (PStr (fingerprint node)) in
    if truthy node_ip && negb (in_strs node_ip local_hosts)
    then Ok node_ip else Ok (PStr "localhost")
  else Ok panel_host.

(** Lines 341-379: the server URL and the reverse port derived for a
    chisel tunnel, or [None] when no listen port is found. *)
Definition restore_chisel_fields (env : Env) (node : Node) (spec : pydict)
    : result (option (string * Z)) :=
  let listen_port :=
    py_or (py_or (get spec "listen_port") (get spec "remote_port"))
          (get spec "server_port") in
  if truthy listen_port then
    let server_control_port := get spec "control_port" in
    let? server_control_port :=
      if truthy server_control_port then to_int server_control_port
      else let? p := to_int listen_port in Ok (p + 10000) in
    let? reverse_port := to_int listen_port in
    let? panel_host := restore_panel_host env node spec in
    Ok (Some (server_url_of env panel_host server_control_port, reverse_port))
  else Ok None.

(** Lines 340-384: the chisel overlay written into [spec_for_node]. *)
Definition chisel_overlay (env : Env) (node : Node) (spec_for_node : loc)
    : M unit :=
  let! d := deref spec_for_node in
  let! o := lift (restore_chisel_fields env node d) in
  match o with
  | Some (server_url, reverse_port) =>
      dict_set spec_for_node "server_url" (PStr server_url) >>
      dict_set spec_for_node "reverse_port" (PInt reverse_port) >>
      dict_set spec_for_node "remote_port" (PInt reverse_port)
  | None => ret tt
  end.

(** Lines 386-388: a node without an API address gets one, and the row is
    committed. *)
Definition ensure_api_address (node : Node) : M unit :=
  let! a := lift (metadata_get node "api_address" PNone) in
  if negb (truthy a) then
    let md := default ∅ (node_metadata node) in
    let ip := get_or md "ip_address" (PStr (fingerprint node)) in
    let port := get_or md "api_port" (PInt 8888) in
    let address := "http://" +:+ py_str ip +:+ ":" +:+ py_str port in
    let node' :=
      {| NodeClient.node_id := node_id node;
         NodeClient.node_metadata := Some (<["api_address" := PStr address]> md);
         NodeClient.fingerprint := fingerprint node |} in
    let! nodes := get_nodes in
    put_nodes (<[node_id node := node']> nodes)
  else ret tt.

(** Lines 295-410: the body of the loop for one tunnel. *)
Definition restore_node_tunnel (env : Env) (tunnel : Tunnel) : M unit :=
  try_except (
    let! nodes := get_nodes in
    match nodes !! default EmptyString (t_node_id tunnel) with
    | None => ret tt
    | Some node =>
        let! spec := deref (t_spec tunnel) in
        let! spec_for_node :=
          if dict_truthy spec then dict_copy (t_spec tunnel) else dict_new ∅ in
        let! go_on :=
          if decide (t_core tunnel = "frp") then
            frp_overlay env node spec_for_node
          else if decide (t_core tunnel = "chisel") then
            chisel_overlay env node spec_for_node >> ret true
          else ret true in
        if go_on then
          ensure_api_address node >>
          let! d := deref spec_for_node in
          emit (EvApply (node_id node) (t_id tunnel) (t_core tunnel)
                  (Some (t_type tunnel)) d) >>
          let! response :=
            lift (client_send env (node_id node) "/api/agent/tunnels/apply" d) in
          match response with
          | JDict _ => ret tt
          | JNonDict _ =>
              raise (AttributeError "object has no attribute 'get'")
          end
        else ret tt
    end).

(** Lines 275-413. *)
Definition _restore_node_tunnels (env : Env) (tunnels : list Tunnel) : M unit :=
  try_except (
    let node_tunnels :=
      filter (fun t => t_core t ∈ CORES ∧ has_node t = true) (active tunnels) in
    for_each node_tunnels (restore_node_tunnel env)).

(** *** Reset scheduler *)

(** Lines 440-441: what a firing writes into the row. *)
Definition fire (now : Z) (config : CoreResetConfig) : CoreResetConfig :=
  {| core := core config; enabled := enabled config;
     interval_minutes := interval_minutes config;
     last_reset := Some now;
     next_reset := Some (now + minutes (interval_minutes config));
     updated_at := updated_at config |}.

(** Lines 431-447: the body of the loop for one enabled row; the result
    is the row as it stands in the store afterwards. *)
Definition scheduler_step (app : AppState) (env : Env) (tunnels : list Tunnel)
    (now : Z) (config : CoreResetConfig) : M CoreResetConfig :=
  match next_reset config with
  | None => ret config
  | Some nr =>
      if nr <=? now then
        fun s =>
          match _reset_core app env tunnels (core config) s with
          | (Ok _, s') => (Ok (fire now config), s')
          | (Raise _, s') => (Ok config, s')   (* [db.rollback()] *)
          end
      else ret config
  end.

(** Lines 425-447: one wake-up of the scheduler at time [now]. *)
Definition scheduler_iteration (app : AppState) (env : Env)
    (tunnels : list Tunnel) (now : Z)
    (configs : gmap string CoreResetConfig) (s : st)
    : gmap string CoreResetConfig * st :=
  foldl (fun acc kc =>
           match scheduler_step app env tunnels now kc.2 acc.2 with
           | (Ok config', s') => (<[kc.1 := config']> acc.1, s')
           | (Raise _, s') => (acc.1, s')
           end)
        (configs, s)
        (map_to_list (filter (fun kc => enabled kc.2 = true) configs)).

(** *** Shutdown *)

(** What the awaited and called parties do at shutdown: the outcome of
    [await app.state.reset_task] ([None]: it returns), and which of
    [h2_server.stop()] and the [cleanup_all()] calls raise. *)
Record ShutdownOracle : Type := {
  await_reset_task : option exn;
  h2_stop_raises : bool;
  cleanup_raises : string -> bool
}.

Definition cleanup_all (o : ShutdownOracle) (manager : string) : M unit :=
  emit (EvCleanup manager) >>
  if cleanup_raises o manager then raise (OtherException "cleanup_all failed")
  else ret tt.

(** Lines 83-99: the part of [lifespan] after [yield]. *)
Definition shutdown (has_reset_task has_h2_server : bool)
    (o : ShutdownOracle) : M unit :=
  (if has_reset_task then
     emit EvCancel >>
     emit EvAwait >>
     match await_reset_task o with
     | None | Some CancelledError => ret tt
     | Some e => raise e
     end
   else ret tt) >>
  (if has_h2_server then
     emit EvH2Stop >>
     if h2_stop_raises o then raise (OtherException "stop failed") else ret tt
   else ret tt) >>
  cleanup_all o "gost_forwarder" >>
  cleanup_all o "rathole_server_manager" >>
  cleanup_all o "backhaul_manager" >>
  cleanup_all o "chisel_server_manager" >>
  cleanup_all o "frp_server_manager".

End Main.

(** ** Vocabulary of the statements, and sample stores *)

Module Samples.
Import NodeClient.

(** Relay is enabled in the settings table: the ["frp"] row has a value
    whose ["enabled"] entry is true. *)
Definition frp_enabled (db : Db) : Prop :=
  exists value, db_settings db !! "frp" = Some (Some value)
                /\ truthy (get value "enabled") = true.

(** The URL an event sends a request to. *)
Definition request_url (e : event) : option string :=
  match e with
  | EvGet url _ => Some url
  | EvPost url _ _ => Some url
  | EvSleep _ => None
  end.



(** What [send_to_node] returns for the reply that ends the loop. *)
Definition final_result (using_frp : bool) (o : http_outcome) : result json :=
  match o with
  | ConnFailed msg =>
      Ok (JDict (error_dict
           (if using_frp
            then ("Network error: " +:+ msg)
                 +:+ " (FRP tunnel may not be ready, tried 3 times)"
            else "Network error: " +:+ msg)))
  | Crashed msg => Ok (JDict (error_dict ("Error: " +:+ msg)))
  | Responded r =>
      if is_success r then
        match body r with
        | JsonObject d => Ok (JDict d)
        | JsonOther repr => Ok (JNonDict repr)
        | NotJson => Ok (JDict (error_dict "Error: Expecting value"))
        end
      else Ok (JDict (node_error r))
  end.

(** A node that registered with fingerprint abc123 and later reported
    relay port 55000. *)
Definition relayed_node : Node :=
  {| node_id := "n1";
     node_metadata :=
       Some {[ "api_address" := PStr "http://10.0.0.5:8888";
               "frp_remote_port" := PInt 55000 ]};
     fingerprint := "abc123" |}.

Definition relay_db : Db :=
  {| db_nodes := {[ "n1" := relayed_node ]};
     db_settings := {[ "frp" := Some ({[ "enabled" := PBool true ]} : pydict) ]} |}.

Definition ok_reply : response :=
  {| status_code := 200;
     body := JsonObject {[ "status" := PStr "ok" ]};
     status_text := EmptyString |}.

(** The first attempt fails to connect, the second is answered. *)
Definition flaky_net : Net :=
  {| net_get := fun _ => ConnFailed "connection refused";
     net_post := fun k _ _ =>
       if (k <? 1)%nat then ConnFailed "connection refused"
       else Responded ok_reply |}.

End Samples.

Module ResetSamples.
Import CoreHealth.



(** The invariant of a reset configuration as the specification words
    it: no next reset iff disabled, and otherwise the next reset is the
    last one plus the interval. *)
Definition reset_invariant (config : CoreResetConfig) : Prop :=
  (next_reset config = None <-> enabled config = false)
  /\ (enabled config = true ->
      exists T, last_reset config = Some T
                /\ next_reset config = Some (T + minutes (interval_minutes config))).

Definition quiet_manager : Manager :=
  {| stop_server := fun _ => false;
     start_server := fun _ _ => false;
     get_active_servers := Ok [] |}.


Definition quiet_env : Env :=
  {| getenv := fun _ => PNone;
     panel_domain := PNone;
     is_valid_ipv6_address := fun _ => false;
     client_apply := fun _ _ _ => false;
     client_send := fun _ _ _ => Ok (JDict {[ "status" := PStr "ok" ]});
     client_status := fun _ => Ok {[ "status" := PStr "ok" ]} |}.

Definition app_with (m : Manager) : AppState :=
  {| backhaul_manager := Some m; rathole_server_manager := Some m;
     chisel_server_manager := Some m; frp_server_manager := Some m |}.

Definition empty_state : st :=
  {| st_heap := ∅; st_nodes := ∅; st_log := [] |}.

(** Enabled, every 10 minutes, last reset at time 0. *)
Definition ten_minutes : CoreResetConfig :=
  {| core := "frp"; enabled := true; interval_minutes := 10;
     last_reset := Some 0; next_reset := Some (minutes 10);
     updated_at := None |}.

(** A node that knows the panel as http://203.0.113.7:8000, an active
    FRP tunnel and an active chisel tunnel on it, and the state holding
    their specs. *)
Definition panel_node : Node :=
  {| NodeClient.node_id := "n1";
     NodeClient.node_metadata :=
       Some {[ "panel_address" := PStr "http://203.0.113.7:8000" ]};
     NodeClient.fingerprint := "abc123" |}.

Definition frp_stored_spec : pydict :=
  {[ "bind_port" := PInt 7000; "token" := PStr "secret" ]}.

Definition chisel_stored_spec : pydict :=
  {[ "listen_port" := PInt 9000; "local_addr" := PStr "127.0.0.1";
     "local_port" := PInt 8080 ]}.

Definition frp_tunnel : Tunnel :=
  {| t_id := "t1"; t_core := "frp"; t_type := "tcp"; t_status := "active";
     t_node_id := Some "n1"; t_spec := 1%positive |}.

Definition chisel_tunnel : Tunnel :=
  {| t_id := "t2"; t_core := "chisel"; t_type := "tcp"; t_status := "active";
     t_node_id := Some "n1"; t_spec := 2%positive |}.

Definition sample_state : st :=
  {| st_heap := {[ 1%positive := frp_stored_spec;
                   2%positive := chisel_stored_spec ]};
     st_nodes := {[ "n1" := panel_node ]};
     st_log := [] |}.

(** Two active rathole tunnels and two active backhaul tunnels, with a
    manager whose [start_server] raises for the first tunnel of each
    pair (a bind conflict, say). *)
Definition rathole_stored_spec : pydict :=
  {[ "remote_addr" := PStr "203.0.113.7:2333"; "token" := PStr "secret";
     "remote_port" := PInt 2333 ]}.

Definition tunnel_of (c tid : string) (l : loc) : Tunnel :=
  {| t_id := tid; t_core := c; t_type := "tcp"; t_status := "active";
     t_node_id := None; t_spec := l |}.

Definition first_start_fails : Manager :=
  {| stop_server := fun _ => false;
     start_server := fun tid _ => bool_decide (tid = "t1");
     get_active_servers := Ok [] |}.

Definition failing_managers : Main.Managers :=
  {| Main.rathole := first_start_fails; Main.backhaul := first_start_fails;
     Main.chisel := first_start_fails; Main.frp := first_start_fails |}.

Definition restore_state : st :=
  {| st_heap := {[ 1%positive := rathole_stored_spec;
                   2%positive := rathole_stored_spec ]};
     st_nodes := ∅; st_log := [] |}.



End ResetSamples.

(** Properties of computations used in the statements below. *)
Module Effects.

(** The computation never raises. *)
Definition total {A} (m : M A) : Prop :=
  forall s, exists a s', m s = (Ok a, s').

(** The computation leaves every dict object that exists when it starts
    as it is: it writes to objects it allocated itself only. *)
Definition frames {A} (m : M A) : Prop :=
  forall s, st_heap s ⊆ st_heap (m s).2.

(** The computation allocates nothing and writes to no object but [l]. *)
Definition touches_only (l : loc) {A} (m : M A) : Prop :=
  forall s l', l' <> l -> st_heap (m s).2 !! l' = st_heap s !! l'.

End Effects.
Export Effects.

(** ** Further code of the same files *)

Module ResetConfigs.
Import CoreHealth.

Record ResetConfigResponse : Type := {
  r_core : string;
  r_enabled : bool;
  r_interval_minutes : Z;
  r_last_reset : option Z;
  r_next_reset : option Z
}.

Definition response_of (config : CoreResetConfig) : ResetConfigResponse :=
  {| r_core := core config; r_enabled := enabled config;
     r_interval_minutes := interval_minutes config;
     r_last_reset := last_reset config; r_next_reset := next_reset config |}.

(** [get_reset_configs], core_health.py lines 153-180: the replies and
    the table after the commits. *)
Definition get_reset_configs (configs : gmap string CoreResetConfig)
    : list ResetConfigResponse * gmap string CoreResetConfig :=
  foldl (fun acc c =>
           match acc.2 !! c with
           | Some config => ((acc.1 ++ [response_of config])%list, acc.2)
           | None =>
               ((acc.1 ++ [response_of (default_config c)])%list,
                <[c := default_config c]> acc.2)
           end)
        ([], configs) CORES.

(** The row of a core once the lazy defaults are in place. *)
Definition settled (configs : gmap string CoreResetConfig) (c : string)
    : CoreResetConfig :=
  default (default_config c) (configs !! c).

End ResetConfigs.

Module Forwards.

(** Line 113: the tunnels the gost forwarder serves. *)
Definition needs_gost_forwarding (tunnel : Tunnel) : bool :=
  bool_decide (t_type tunnel ∈ ["tcp"; "udp"; "ws"; "grpc"; "tcpmux"])
  && bool_decide (t_core tunnel = "xray").

(** Lines 117-123: where a tunnel forwards to. *)
Definition forward_target (spec : pydict) : pyval :=
  let forward_to := get spec "forward_to" in
  if negb (truthy forward_to) then
    let remote_ip := get_or spec "remote_ip" (PStr "127.0.0.1") in
    let remote_port := get_or spec "remote_port" (PInt 8080) in
    PStr (py_str remote_ip +:+ ":" +:+ py_str remote_port)
  else forward_to.

(** Lines 111-142: the body of the loop for one tunnel; [gost] is the
    forwarder, whose [start_forward] is the manager's start. *)
Definition restore_forward (gost : Manager) (tunnel : Tunnel) : M unit :=
  if negb (needs_gost_forwarding tunnel) then ret tt else
  let! spec := deref (t_spec tunnel) in
  let listen_port := get spec "listen_port" in
  let forward_to := forward_target spec in
  let panel_port := py_or listen_port (get spec "remote_port") in
  if negb (truthy panel_port) || negb (truthy forward_to) then ret tt else
  try_except (
    let use_ipv6 := get_or spec "use_ipv6" (PBool false) in
    let! p := int_ panel_port in
    call_start "gost" gost (t_id tunnel)
      {[ "local_port" := PInt p; "forward_to" := forward_to;
         "tunnel_type" := PStr (t_type tunnel);
         "use_ipv6" := PBool (truthy use_ipv6) ]}).

(** [_restore_forwards], main.py lines 102-144. *)
Definition _restore_forwards (gost : Manager) (tunnels : list Tunnel) : M unit :=
  try_except (for_each (active tunnels) (restore_forward gost)).

End Forwards.

(** The node agent's side of the registration,
    [node/app/panel_client.py]. *)
Module PanelClient.

(** Lines 54-67: protocol, host and port of the configured panel
    address. *)
Definition split_panel_address (panel_address : string)
    : string * string * string :=
  match split_once "://" panel_address with
  | Some (protocol, rest) =>
      match split_once ":" rest with
      | Some (panel_host, port) => (protocol, panel_host, port)
      | None => (protocol, rest, "443")
      end
  | None =>
      match split_once ":" panel_address with
      | Some (panel_host, port) => ("http", panel_host, port)
      | None => ("http", panel_address, "443")
      end
  end.

(** Lines 172-182: the host [_report_frp_status] derives. *)
Definition report_host (panel_address : string) : string :=
  match split_once "://" panel_address with
  | Some (_, rest) =>
      match split_once ":" rest with
      | Some (panel_host, _) => panel_host
      | None => rest
      end
  | None =>
      match split_once ":" panel_address with
      | Some (panel_host, _) => panel_host
      | None => panel_address
      end
  end.

(** Line 71 and line 185: [f"http://{panel_host}:{panel_api_port}"]. *)
Definition panel_api_url (panel_host : string) (panel_api_port : pyval) : string :=
  "http://" +:+ panel_host +:+ ":" +:+ py_str panel_api_port.

(** Line 96: where the node registers. *)
Definition registration_url (panel_address : string) (panel_api_port : pyval)
    : string :=
  panel_api_url (split_panel_address panel_address).1.2 panel_api_port
  +:+ "/api/nodes".

(** Line 187: where the node reports its relay port. *)
Definition frp_status_url (panel_address : string) (panel_api_port : pyval)
    (nid : string) : string :=
  panel_api_url (report_host panel_address) panel_api_port
  +:+ "/api/nodes/" +:+ nid +:+ "/frp-status".

(** Lines 87-92: the metadata a node registers with. *)
Definition registration_metadata (node_ip : string) (node_api_port : Z)
    (node_name panel_address role : string) : pydict :=
  {[ "api_address" := PStr ("http://" +:+ node_ip +:+ ":" +:+ str_of_Z node_api_port);
     "node_name" := PStr node_name;
     "panel_address" := PStr panel_address;
     "role" := PStr role ]}.

End PanelClient.

(** What a computation may record. *)
Module Traces.

(** Every event the computation records satisfies [P]. *)
Definition emits (P : event -> Prop) {A} (m : M A) : Prop :=
  forall s, exists evs,
    st_log (m s).2 = (st_log s ++ evs)%list /\ Forall P evs.

(** The events of a reset of core [c] over the active tunnels [ts]:
    stops, starts and deliveries for tunnels of [ts] under the name of
    [c], and pauses. *)
Definition reset_event (c : string) (ts : list Tunnel) (e : event) : Prop :=
  match e with
  | EvStop c' tid | EvStart c' tid _ =>
      c' = c /\ exists t, t ∈ ts /\ t_id t = tid
  | EvSleep _ => True
  | EvApply nid tid c' _ _ =>
      c' = c /\ exists t, t ∈ ts /\ t_id t = tid /\ t_node_id t = Some nid
  | _ => False
  end.

(** The events of a restore loop of core [c]: starts of tunnels of
    [ts], nothing else. *)
Definition start_event (c : string) (ts : list Tunnel) (e : event) : Prop :=
  match e with
  | EvStart c' tid _ => c' = c /\ exists t, t ∈ ts /\ t_id t = tid
  | _ => False
  end.

(** The events one panel-side restart can leave: a stop, then a pause,
    then a start, cut short where a step raised. *)
Definition restart_trace (c tid : string) (evs : list event) : Prop :=
  evs = [] \/ evs = [EvStop c tid] \/ evs = [EvStop c tid; EvSleep 500]
  \/ exists args, evs = [EvStop c tid; EvSleep 500; EvStart c tid args].

(** The computation records nothing. *)
Definition silent {A} (m : M A) : Prop :=
  forall s, st_log (m s).2 = st_log s.

End Traces.
Export Traces.

(** * Properties *)

(** ** Strings *)

Lemma rstrip_unchanged (c : ascii) (s : string) :
  last_char s <> Some c -> rstrip c s = s.
Proof.
  induction s as [|a s IH]; [reflexivity|].
  intros Hlast. simpl in *. destruct s as [|b s'].
  - simpl. destruct (Ascii.eqb_spec a c) as [->|]; [congruence|reflexivity].
  - rewrite IH by exact Hlast. reflexivity.
Qed.

Lemma append_cons (a : ascii) (s1 s2 : string) :
  String a s1 +:+ s2 = String a (s1 +:+ s2).
Proof. reflexivity. Qed.

Lemma append_empty_l (s : string) : EmptyString +:+ s = s.
Proof. reflexivity. Qed.

Lemma last_char_app (s1 s2 : string) :
  s2 <> EmptyString -> last_char (s1 +:+ s2) = last_char s2.
Proof.
  intros Hne. induction s1 as [|a s1 IH]; [reflexivity|].
  rewrite append_cons. simpl. rewrite IH.
  destruct (s1 +:+ s2) eqn:E; [|reflexivity].
  destruct s1.
  - rewrite append_empty_l in E. congruence.
  - rewrite append_cons in E. discriminate.
Qed.

Lemma uint_nil_dec (d : uint) : d = Nil \/ d <> Nil.
Proof. destruct d; [left; reflexivity|right; discriminate..]. Qed.

Lemma last_char_uint (d : uint) :
  d <> Nil ->
  exists c, last_char (NilEmpty.string_of_uint d) = Some c /\ is_digit c = true.
Proof.
  induction d as [|d IH|d IH|d IH|d IH|d IH|d IH|d IH|d IH|d IH|d IH];
    intros Hd; try congruence;
    (destruct (uint_nil_dec d) as [->|Hne];
     [simpl; eexists; split; reflexivity
     |destruct (IH Hne) as (c & Hc & Hdig); exists c; split; [|exact Hdig];
      simpl; destruct (NilEmpty.string_of_uint d); [discriminate|exact Hc]]).
Qed.

Lemma last_char_str_of_Z (z : Z) :
  exists c, last_char (str_of_Z z) = Some c /\ is_digit c = true.
Proof.
  assert (Hu : forall d, exists c,
             last_char (NilZero.string_of_uint d) = Some c /\ is_digit c = true).
  { intros d. destruct (uint_nil_dec d) as [->|Hne].
    - simpl. eexists; split; reflexivity.
    - destruct (last_char_uint d Hne) as (c & Hc & Hdig). exists c.
      split; [|exact Hdig]. destruct d; try congruence; exact Hc. }
  unfold str_of_Z. destruct (Z.to_int z) as [d|d]; simpl.
  - apply Hu.
  - destruct (Hu d) as (c & Hc & Hdig). exists c. split; [|exact Hdig].
    destruct (NilZero.string_of_uint d); [discriminate|exact Hc].
Qed.

(** A loopback address built from an integer port has no trailing slash
    to strip. *)
Lemma rstrip_loopback (z : Z) :
  rstrip "/" ("http://127.0.0.1:" +:+ str_of_Z z) = "http://127.0.0.1:" +:+ str_of_Z z.
Proof.
  apply rstrip_unchanged.
  destruct (last_char_str_of_Z z) as (c & Hc & Hdig).
  rewrite last_char_app.
  - rewrite Hc. intros [= ->]. discriminate Hdig.
  - intros E. rewrite E in Hc. discriminate.
Qed.

Lemma get_empty (k : string) : get ∅ k = PNone.
Proof. unfold get. rewrite lookup_empty. reflexivity. Qed.

Lemma dict_truthy_lookup (d : pydict) (k : string) (v : pyval) :
  d !! k = Some v -> dict_truthy d = true.
Proof.
  intros H. unfold dict_truthy. rewrite bool_decide_eq_false_2; [reflexivity|].
  intros ->. rewrite lookup_empty in H. discriminate.
Qed.

Lemma dict_truthy_get (d : pydict) (k : string) :
  truthy (get d k) = true -> dict_truthy d = true.
Proof.
  unfold get. destruct (d !! k) eqn:E; simpl; [|discriminate].
  intros _. eapply dict_truthy_lookup, E.
Qed.

(** ** The node client *)

Module NodeClientFacts.
Import NodeClient Samples.

Lemma frp_enabled_settings (db : Db) :
  frp_enabled db ->
  exists value, _get_frp_settings db = Some value
                /\ dict_truthy value && truthy (get value "enabled") = true.
Proof.
  intros (value & Hrow & Hen). exists value.
  assert (Hd : dict_truthy value = true) by (eapply dict_truthy_get, Hen).
  unfold _get_frp_settings. rewrite Hrow, Hd, Hen. split; reflexivity.
Qed.

Lemma relayed_address (db : Db) (node : Node) (md : pydict) (port : pyval) :
  frp_enabled db ->
  node_metadata node = Some md ->
  md !! "frp_remote_port" = Some port ->
  truthy port = true ->
  _get_node_address db node = Ok ("http://127.0.0.1:" +:+ py_str port, true).
Proof.
  intros Hfrp Hmd Hport Htr.
  destruct (frp_enabled_settings db Hfrp) as (value & Hs & Hon).
  unfold _get_node_address. rewrite Hs, Hon, Hmd.
  rewrite (dict_truthy_lookup md _ _ Hport).
  unfold get. rewrite Hport. simpl. rewrite Htr. reflexivity.
Qed.

Lemma retry_loop_events (net : Net) (url : string) (data : pydict)
    (using_frp : bool) (max_retries : Z) (todo : list nat) (last : pyval) :
  Forall (fun e => e = EvPost url data timeout \/ e = EvSleep 1000)
         (retry_loop net url data using_frp max_retries todo last).1.
Proof.
  revert last. induction todo as [|k todo IH]; intros last; simpl.
  - constructor.
  - destruct (read_reply (net_post net k url data)) as [v|e].
    + simpl. repeat constructor.
    + destruct e; simpl; try (repeat constructor; fail).
      destruct (Z.of_nat k <? max_retries - 1).
      * specialize (IH (PStr msg)).
        destruct (retry_loop net url data using_frp max_retries todo (PStr msg))
          as [tr r]. simpl in *.
        constructor; [left; reflexivity|].
        constructor; [right; reflexivity|]. exact IH.
      * simpl. repeat constructor.
Qed.

Lemma retry_loop_first (net : Net) (url : string) (data : pydict)
    (using_frp : bool) (max_retries : Z) (k : nat) (todo : list nat)
    (last : pyval) :
  exists rest,
    (retry_loop net url data using_frp max_retries (k :: todo) last).1
    = EvPost url data timeout :: rest.
Proof.
  simpl. destruct (read_reply (net_post net k url data)) as [v|e].
  - eexists; reflexivity.
  - destruct e; try (eexists; reflexivity).
    destruct (Z.of_nat k <? max_retries - 1).
    + destruct (retry_loop net url data using_frp max_retries todo (PStr msg)).
      eexists; reflexivity.
    + eexists; reflexivity.
Qed.

Lemma send_to_node_unfold (db : Db) (net : Net) (nid : string) (node : Node)
    (addr : string) (using_frp : bool) (endpoint : string) (data : pydict) :
  db_nodes db !! nid = Some node ->
  _get_node_address db node = Ok (addr, using_frp) ->
  let url := rstrip "/" addr +:+ endpoint in
  let probe :=
    if using_frp then [EvGet (rstrip "/" addr +:+ "/api/agent/status") 5000]
    else [] in
  let run :=
    retry_loop net url data using_frp (max_retries_of using_frp)
      (seq 0 (Z.to_nat (max_retries_of using_frp))) PNone in
  send_to_node db net nid endpoint data
  = ((probe ++ run.1)%list, outer_handlers run.2).
Proof.
  intros Hnode Haddr url probe run. unfold send_to_node.
  rewrite Hnode, Haddr. fold url. fold probe. fold run.
  destruct run. reflexivity.
Qed.

(** C1. When relay is enabled in the settings and the stored metadata of
    a node carries a (truthy) relay port, the node's address is loopback
    plus that port over the relayed transport, and every request
    [send_to_node] issues for it, the liveness probe and each attempt,
    goes to a URL under that loopback address; the node's [api_address]
    plays no part in it.  For an integer port the base is exactly
    [http://127.0.0.1:<port>]. *)
Theorem relayed_delivery_targets_loopback
    (db : Db) (net : Net) (nid : string) (node : Node) (md : pydict)
    (port : pyval) (endpoint : string) (data : pydict) :
  db_nodes db !! nid = Some node ->
  frp_enabled db ->
  node_metadata node = Some md ->
  md !! "frp_remote_port" = Some port ->
  truthy port = true ->
  let base := rstrip "/" ("http://127.0.0.1:" +:+ py_str port) in
  let trace := (send_to_node db net nid endpoint data).1 in
  _get_node_address db node = Ok ("http://127.0.0.1:" +:+ py_str port, true)
  /\ (exists rest,
        trace = EvGet (base +:+ "/api/agent/status") 5000
                  :: EvPost (base +:+ endpoint) data timeout :: rest)
  /\ Forall (fun e => forall u, request_url e = Some u ->
                        u = base +:+ "/api/agent/status"
                        \/ u = base +:+ endpoint) trace
  /\ (forall z, port = PInt z -> base = "http://127.0.0.1:" +:+ str_of_Z z).
Proof.
  intros Hnode Hfrp Hmd Hport Htr base trace.
  pose proof (relayed_address db node md port Hfrp Hmd Hport Htr) as Haddr.
  split; [exact Haddr|].
  assert (Htrace : trace =
            EvGet (base +:+ "/api/agent/status") 5000
            :: (retry_loop net (base +:+ endpoint) data true 3 [0; 1; 2]%nat PNone).1).
  { unfold trace.
    rewrite (send_to_node_unfold db net nid node _ true endpoint data Hnode Haddr).
    reflexivity. }
  split; [|split].
  - destruct (retry_loop_first net (base +:+ endpoint) data true 3 0%nat
                [1; 2]%nat PNone) as (rest & Hrest).
    exists rest. rewrite Htrace, Hrest. reflexivity.
  - rewrite Htrace. constructor.
    + intros u [= <-]. left; reflexivity.
    + eapply Forall_impl; [apply retry_loop_events|].
      intros e [-> | ->] u; simpl; [intros [= <-]; right; reflexivity|discriminate].
  - intros z ->. unfold base. simpl. apply rstrip_loopback.
Qed.

(** The scenario of the specification: relay port 55000 reported, first
    attempt lost. *)
Lemma relayed_delivery_targets_loopback_witness :
  (send_to_node relay_db flaky_net "n1" "/api/agent/tunnels/apply" ∅).1
  = [EvGet "http://127.0.0.1:55000/api/agent/status" 5000;
     EvPost "http://127.0.0.1:55000/api/agent/tunnels/apply" ∅ timeout;
     EvSleep 1000;
     EvPost "http://127.0.0.1:55000/api/agent/tunnels/apply" ∅ timeout]
  /\ _get_node_address relay_db relayed_node = Ok ("http://127.0.0.1:55000", true).
Proof.
  split; [vm_compute; reflexivity|].
  refine (proj1 (relayed_delivery_targets_loopback relay_db flaky_net "n1"
                   relayed_node _ (PInt 55000) "/api/agent/tunnels/apply" ∅
                   _ _ _ _ _)).
  - reflexivity.
  - eexists. split; reflexivity.
  - reflexivity.
  - reflexivity.
  - reflexivity.
Defined.

Ltac first_attempts E0 E1 :=
  let k := fresh "k" in
  let Hk := fresh "Hk" in
  intros k Hk;
  first
    [ exfalso; simpl in Hk; lia
    | assert (k = 0%nat) as -> by (simpl in Hk; lia); rewrite E0; eexists; reflexivity
    | assert (k = 0%nat \/ k = 1%nat) as [-> | ->] by (simpl in Hk; lia);
      [rewrite E0 | rewrite E1]; eexists; reflexivity ].

(** The attempts of one call, their spacing and the reply that ends them. *)
Lemma send_to_node_attempts
    (db : Db) (net : Net) (nid : string) (node : Node) (addr : string)
    (using_frp : bool) (endpoint : string) (data : pydict) :
  db_nodes db !! nid = Some node ->
  _get_node_address db node = Ok (addr, using_frp) ->
  let url := rstrip "/" addr +:+ endpoint in
  let post := EvPost url data timeout in
  let probe :=
    if using_frp then [EvGet (rstrip "/" addr +:+ "/api/agent/status") 5000]
    else [] in
  let limit := if using_frp then 3%nat else 1%nat in
  let run := send_to_node db net nid endpoint data in
  exists n : nat,
    (1 <= n <= limit)%nat
    /\ run.1 = (probe ++ post :: concat (replicate (n - 1) [EvSleep 1000; post]))%list
    /\ (forall k, (k < n - 1)%nat ->
          exists msg, net_post net k url data = ConnFailed msg)
    /\ run.2 = final_result using_frp (net_post net (n - 1) url data)
    /\ (forall msg, net_post net (n - 1) url data = ConnFailed msg -> n = limit)
    /\ (forall r, net_post net (n - 1) url data = Responded r ->
          is_success r = false -> run.2 = Ok (JDict (node_error r))).
Proof.
  intros Hnode Haddr url post probe limit run. unfold run.
  rewrite (send_to_node_unfold db net nid node addr using_frp endpoint data
             Hnode Haddr).
  fold url. unfold probe, limit. destruct using_frp.
  - change (seq 0 (Z.to_nat (max_retries_of true))) with [0; 1; 2]%nat.
    change (max_retries_of true) with 3.
    destruct (net_post net 0%nat url data) as [r0|m0|m0] eqn:E0.
    + exists 1%nat. split; [lia|]. simpl retry_loop. rewrite E0.
      split; [|split; [first_attempts E0 E0|]].
      * unfold read_reply. destruct (is_success r0); [destruct (body r0)|]; reflexivity.
      * simpl Nat.sub. rewrite E0. split; [|split].
        -- unfold read_reply, final_result.
           destruct (is_success r0); [destruct (body r0)|]; reflexivity.
        -- discriminate.
        -- intros r [= <-] Hr. unfold read_reply. rewrite Hr. reflexivity.
    + destruct (net_post net 1%nat url data) as [r1|m1|m1] eqn:E1.
      * exists 2%nat. split; [lia|]. simpl retry_loop. rewrite E0, E1.
        split; [|split; [first_attempts E0 E1|]].
        -- unfold read_reply. destruct (is_success r1); [destruct (body r1)|]; reflexivity.
        -- simpl Nat.sub. rewrite E1. split; [|split].
           ++ unfold read_reply, final_result.
              destruct (is_success r1); [destruct (body r1)|]; reflexivity.
           ++ discriminate.
           ++ intros r [= <-] Hr. unfold read_reply. rewrite Hr. reflexivity.
      * destruct (net_post net 2%nat url data) as [r2|m2|m2] eqn:E2.
        -- exists 3%nat. split; [lia|]. simpl retry_loop. rewrite E0, E1, E2.
           split; [|split; [first_attempts E0 E1|]].
           ++ unfold read_reply. destruct (is_success r2); [destruct (body r2)|]; reflexivity.
           ++ simpl Nat.sub. rewrite E2. split; [|split].
              ** unfold read_reply, final_result.
                 destruct (is_success r2); [destruct (body r2)|]; reflexivity.
              ** discriminate.
              ** intros r [= <-] Hr. unfold read_reply. rewrite Hr. reflexivity.
        -- exists 3%nat. split; [lia|]. simpl retry_loop. rewrite E0, E1, E2.
           split; [reflexivity|split; [first_attempts E0 E1|]].
           simpl Nat.sub. rewrite E2. split; [reflexivity|split; [reflexivity|discriminate]].
        -- exists 3%nat. split; [lia|]. simpl retry_loop. rewrite E0, E1, E2.
           split; [reflexivity|split; [first_attempts E0 E1|]].
           simpl Nat.sub. rewrite E2. split; [reflexivity|split; discriminate].
      * exists 2%nat. split; [lia|]. simpl retry_loop. rewrite E0, E1.
        split; [reflexivity|split; [first_attempts E0 E1|]].
        simpl Nat.sub. rewrite E1. split; [reflexivity|split; discriminate].
    + exists 1%nat. split; [lia|]. simpl retry_loop. rewrite E0.
      split; [reflexivity|split; [first_attempts E0 E0|]].
      simpl Nat.sub. rewrite E0. split; [reflexivity|split; discriminate].
  - change (seq 0 (Z.to_nat (max_retries_of false))) with [0]%nat.
    change (max_retries_of false) with 1.
    exists 1%nat. split; [lia|]. simpl retry_loop.
    split; [|split; [intros k Hk; simpl in Hk; lia|]].
    + destruct (net_post net 0%nat url data) as [r0|m0|m0]; simpl;
        [destruct (is_success r0); [destruct (body r0)|]|..]; reflexivity.
    + simpl Nat.sub.
      destruct (net_post net 0%nat url data) as [r0|m0|m0] eqn:E0; simpl.
      * split; [|split].
        -- destruct (is_success r0); [destruct (body r0)|]; reflexivity.
        -- discriminate.
        -- intros r [= <-] Hr. rewrite Hr. reflexivity.
      * split; [reflexivity|split; [reflexivity|discriminate]].
      * split; [reflexivity|split; discriminate].
Qed.

(** C2. A call to [send_to_node] for a known node makes [n] attempts,
    with [1 <= n <= 3] over the relayed transport and [n = 1] over the
    direct one, and sleeps one second between two consecutive attempts.
    Every attempt but the last failed with a network error; the last one
    either was answered (or crashed), and its outcome is returned at once,
    a reply with an error status as a node error carrying the decoded
    detail, or was the last allowed attempt failing with a network error. *)
Theorem retry_policy
    (db : Db) (net : Net) (nid : string) (node : Node) (addr : string)
    (using_frp : bool) (endpoint : string) (data : pydict) :
  db_nodes db !! nid = Some node ->
  _get_node_address db node = Ok (addr, using_frp) ->
  let url := rstrip "/" addr +:+ endpoint in
  let post := EvPost url data timeout in
  let probe :=
    if using_frp then [EvGet (rstrip "/" addr +:+ "/api/agent/status") 5000]
    else [] in
  let limit := if using_frp then 3%nat else 1%nat in
  let run := send_to_node db net nid endpoint data in
  exists n : nat,
    (1 <= n <= limit)%nat
    /\ run.1 = (probe ++ post :: concat (replicate (n - 1) [EvSleep 1000; post]))%list
    /\ (forall k, (k < n - 1)%nat ->
          exists msg, net_post net k url data = ConnFailed msg)
    /\ run.2 = final_result using_frp (net_post net (n - 1) url data)
    /\ (forall msg, net_post net (n - 1) url data = ConnFailed msg -> n = limit)
    /\ (forall r, net_post net (n - 1) url data = Responded r ->
          is_success r = false -> run.2 = Ok (JDict (node_error r))).
Proof.
  intros Hnode Haddr.
  exact (send_to_node_attempts db net nid node addr using_frp endpoint data
           Hnode Haddr).
Qed.

(** Relayed transport, first attempt lost, second answered: two
    attempts, one second apart. *)
Lemma retry_policy_witness :
  exists n : nat,
    (1 <= n <= 3)%nat
    /\ (send_to_node relay_db flaky_net "n1" "/api/agent/tunnels/apply" ∅).1
       = ([EvGet "http://127.0.0.1:55000/api/agent/status" 5000]
          ++ EvPost "http://127.0.0.1:55000/api/agent/tunnels/apply" ∅ timeout
             :: concat (replicate (n - 1)
                  [EvSleep 1000;
                   EvPost "http://127.0.0.1:55000/api/agent/tunnels/apply" ∅
                     timeout]))%list.
Proof.
  destruct (retry_policy relay_db flaky_net "n1" relayed_node
              "http://127.0.0.1:55000" true "/api/agent/tunnels/apply" ∅
              eq_refl eq_refl) as (n & Hn & Htrace & _).
  exists n. split; [exact Hn|exact Htrace].
Defined.







End NodeClientFacts.

(** ** Health of a core *)

Module HealthFacts.
Import CoreHealth ResetSamples.


Lemma core_health_panel (app : AppState) (env : Env) (tunnels : list Tunnel)
    (nodes : gmap string Node) (c : string) :
  let h := core_health app env tunnels nodes c in
  (panel_status h, panel_healthy h)
  = panel_health (manager_of app c) (active_of c tunnels).
Proof.
  unfold core_health. destruct (panel_health _ _). reflexivity.
Qed.





End HealthFacts.

(** ** Computations: totality and framing *)

Module EffectFacts.

Lemma total_ret {A} (a : A) : total (ret a).
Proof. intros s. eexists _, _. reflexivity. Qed.

Lemma total_bind {A B} (m : M A) (f : A -> M B) :
  total m -> (forall a, total (f a)) -> total (bind m f).
Proof.
  intros Hm Hf s. destruct (Hm s) as (a & s1 & E).
  unfold bind. rewrite E. apply Hf.
Qed.

Lemma total_try_except (m : M unit) : total (try_except m).
Proof.
  intros s. unfold try_except. destruct (m s) as [[[]|e] s1]; eexists _, _; reflexivity.
Qed.

Lemma total_for_each {A} (l : list A) (body : A -> M unit) :
  (forall x, total (body x)) -> total (for_each l body).
Proof.
  intros Hb. induction l as [|x l IH]; simpl.
  - apply total_ret.
  - apply total_bind; [apply Hb|intros _; exact IH].
Qed.

Lemma total_get_nodes : total get_nodes.
Proof. intros s. eexists _, _. reflexivity. Qed.

Lemma frames_bind {A B} (m : M A) (f : A -> M B) :
  frames m -> (forall a, frames (f a)) -> frames (bind m f).
Proof.
  intros Hm Hf s. specialize (Hm s). unfold bind.
  destruct (m s) as [[a|e] s1]; simpl in *; [|exact Hm].
  etransitivity; [exact Hm|apply Hf].
Qed.

Lemma frames_try_except (m : M unit) : frames m -> frames (try_except m).
Proof.
  intros Hm s. specialize (Hm s). unfold try_except.
  destruct (m s) as [[[]|e] s1]; exact Hm.
Qed.

Lemma frames_for_each {A} (l : list A) (body : A -> M unit) :
  (forall x, frames (body x)) -> frames (for_each l body).
Proof.
  intros Hb. induction l as [|x l IH]; simpl.
  - intros s. reflexivity.
  - apply frames_bind; [apply Hb|intros _; exact IH].
Qed.

Lemma frames_ret {A} (a : A) : frames (ret a).
Proof. intros s. reflexivity. Qed.

Lemma frames_raise {A} (e : exn) : frames (@raise A e).
Proof. intros s. reflexivity. Qed.

Lemma frames_lift {A} (r : result A) : frames (lift r).
Proof. intros s. reflexivity. Qed.

Lemma frames_emit (e : event) : frames (emit e).
Proof. intros s. reflexivity. Qed.

Lemma frames_get_heap : frames get_heap.
Proof. intros s. reflexivity. Qed.

Lemma frames_get_nodes : frames get_nodes.
Proof. intros s. reflexivity. Qed.

Lemma frames_put_nodes (n : gmap string Node) : frames (put_nodes n).
Proof. intros s. reflexivity. Qed.

Lemma frames_deref (l : loc) : frames (deref l).
Proof. intros s. reflexivity. Qed.

Lemma frames_dict_new (d : pydict) : frames (dict_new d).
Proof.
  intros s. cbn. apply insert_subseteq.
  apply not_elem_of_dom. apply is_fresh.
Qed.

Lemma frames_dict_copy (l : loc) : frames (dict_copy l).
Proof.
  unfold dict_copy. apply frames_bind; [apply frames_deref|].
  intros d. apply frames_dict_new.
Qed.

Lemma frames_call_stop (c : string) (m : Manager) (tid : string) :
  frames (call_stop c m tid).
Proof. intros s. unfold call_stop, bind. cbn. destruct (stop_server m tid); reflexivity. Qed.

Lemma frames_call_start (c : string) (m : Manager) (tid : string) (args : pydict) :
  frames (call_start c m tid args).
Proof.
  intros s. unfold call_start, bind. cbn.
  destruct (start_server m tid args); reflexivity.
Qed.

Lemma touches_bind (l : loc) {A B} (m : M A) (f : A -> M B) :
  touches_only l m -> (forall a, touches_only l (f a)) ->
  touches_only l (bind m f).
Proof.
  intros Hm Hf s l' Hne. specialize (Hm s l' Hne). unfold bind.
  destruct (m s) as [[a|e] s1]; simpl in *; [|exact Hm].
  rewrite (Hf a s1 l' Hne). exact Hm.
Qed.

Lemma touches_pure (l : loc) {A} (m : M A) :
  (forall s, st_heap (m s).2 = st_heap s) -> touches_only l m.
Proof. intros H s l' _. rewrite H. reflexivity. Qed.

Lemma touches_dict_set (l : loc) (k : string) (v : pyval) :
  touches_only l (dict_set l k v).
Proof.
  intros s l' Hne. cbn. apply lookup_alter_ne. congruence.
Qed.

Create HintDb frames.
#[export] Hint Resolve frames_ret frames_raise frames_lift frames_emit
  frames_get_heap frames_get_nodes frames_put_nodes frames_deref
  frames_dict_new frames_dict_copy frames_call_stop frames_call_start
  : frames.

(** Break a computation along its binds and branches. *)
Ltac frames_step :=
  match goal with
  | |- frames (bind _ _) => apply frames_bind; [|intros ?]
  | |- frames (try_except _) => apply frames_try_except
  | |- frames (for_each _ _) => apply frames_for_each; intros ?
  | |- frames (if ?b then _ else _) => destruct b
  | |- frames (match ?x with _ => _ end) => destruct x
  | |- frames (sleep _) => apply frames_emit
  | |- frames (int_ _) => apply frames_lift
  | |- frames _ => solve [auto with frames]
  end.

Ltac touches_step :=
  match goal with
  | |- touches_only _ (bind _ _) => apply touches_bind; [|intros ?]
  | |- touches_only ?l (dict_set ?l _ _) => apply touches_dict_set
  | |- touches_only _ (if ?b then _ else _) => destruct b
  | |- touches_only _ (match ?x with _ => _ end) => destruct x
  | |- touches_only _ _ => solve [apply touches_pure; intros ?; reflexivity]
  end.

End EffectFacts.

(** ** Reset of a core *)

Module ResetFacts.
Import CoreHealth ResetSamples EffectFacts.

Lemma restart_local_total (app : AppState) (c : string) (ts : list Tunnel) :
  total (restart_local app c ts).
Proof.
  unfold restart_local.
  repeat match goal with
         | |- total (if ?b then _ else _) => destruct b
         | |- total (match ?x with _ => _ end) => destruct x
         end;
    try apply total_ret;
    apply total_for_each; intros t; apply total_try_except.
Qed.

Lemma reset_core_total (app : AppState) (env : Env) (tunnels : list Tunnel)
    (c : string) :
  total (_reset_core app env tunnels c).
Proof.
  unfold _reset_core. apply total_bind; [apply restart_local_total|].
  intros _. apply total_for_each. intros nid.
  apply total_bind; [apply total_get_nodes|]. intros nodes.
  destruct (nodes !! nid); [|apply total_ret].
  apply total_for_each. intros t. apply total_try_except.
Qed.

Lemma restart_local_frames (app : AppState) (c : string) (ts : list Tunnel) :
  frames (restart_local app c ts).
Proof.
  unfold restart_local, restart_backhaul, restart_rathole, restart_chisel,
    restart_frp.
  repeat frames_step.
Qed.

Lemma frp_overlay_touches (env : Env) (node : Node) (l : loc) :
  touches_only l (frp_overlay env node l).
Proof. unfold frp_overlay. repeat touches_step. Qed.

(** The FRP branch writes its overlay into the copy it has just made. *)
Lemma frp_spec_frames (env : Env) (node : Node) (tunnel : Tunnel) :
  frames (frp_spec env node tunnel).
Proof.
  intros s. unfold frp_spec, dict_copy, dict_new, deref.
  set (h := st_heap s). set (l := fresh (dom h)).
  assert (Hfresh : h !! l = None) by (apply not_elem_of_dom, is_fresh).
  set (s1 := {| st_heap := <[l := default ∅ (h !! t_spec tunnel)]> h;
                st_nodes := st_nodes s; st_log := st_log s |}).
  assert (Hrun : forall l', l' <> l ->
            st_heap (frp_overlay env node l s1).2 !! l' = h !! l').
  { intros l' Hne. rewrite (frp_overlay_touches env node l s1 l' Hne).
    simpl. apply lookup_insert_ne. congruence. }
  apply map_subseteq_spec. intros l' d' Hl'.
  assert (Hne : l' <> l) by (intros ->; fold h in Hl'; congruence).
  specialize (Hrun l' Hne). fold h in Hl'. rewrite Hl' in Hrun.
  cbn. fold h. fold l. fold s1. unfold bind at 1.
  destruct (frp_overlay env node l s1) as [[ok|e] s2]; exact Hrun.
Qed.

Lemma node_spec_frames (env : Env) (c : string) (node : Node) (tunnel : Tunnel) :
  frames (node_spec env c node tunnel).
Proof.
  unfold node_spec.
  repeat first [apply frp_spec_frames | frames_step].
Qed.

Lemma reset_node_tunnel_frames (env : Env) (c nid : string) (node : Node)
    (tunnel : Tunnel) :
  frames (reset_node_tunnel env c nid node tunnel).
Proof.
  unfold reset_node_tunnel.
  repeat first [apply node_spec_frames | frames_step].
Qed.

Lemma reset_core_frames (app : AppState) (env : Env) (tunnels : list Tunnel)
    (c : string) :
  frames (_reset_core app env tunnels c).
Proof.
  unfold _reset_core.
  repeat first [apply restart_local_frames | apply reset_node_tunnel_frames
               | frames_step].
Qed.

(** C9. A reset of a core, run on its own or through the manual reset
    endpoint, leaves every dict object that existed before it unchanged;
    in particular the spec of every stored tunnel is the same mapping
    afterwards.  The derived fields are written to copies and to fresh
    dicts allocated by the reset, which are what is sent to the node. *)
Theorem reset_keeps_stored_specs
    (app : AppState) (env : Env) (tunnels : list Tunnel)
    (configs : gmap string CoreResetConfig) (c : string) (now : Z) (s : st) :
  let after_reset := (_reset_core app env tunnels c s).2 in
  let after_manual := (manual_reset_core app env tunnels configs c now s).2 in
  (forall l d, st_heap s !! l = Some d ->
     st_heap after_reset !! l = Some d /\ st_heap after_manual !! l = Some d)
  /\ (forall t d, t ∈ tunnels -> st_heap s !! t_spec t = Some d ->
        st_heap after_reset !! t_spec t = Some d
        /\ st_heap after_manual !! t_spec t = Some d).
Proof.
  intros after_reset after_manual.
  assert (Hreset : st_heap s ⊆ st_heap after_reset)
    by apply reset_core_frames.
  assert (Hmanual : st_heap s ⊆ st_heap after_manual).
  { unfold after_manual, manual_reset_core.
    destruct (negb (bool_decide (c ∈ CORES))); [reflexivity|].
    fold after_reset in Hreset. unfold after_reset in Hreset.
    destruct (_reset_core app env tunnels c s) as [[[]|e] s1]; exact Hreset. }
  assert (Hall : forall l d, st_heap s !! l = Some d ->
            st_heap after_reset !! l = Some d /\ st_heap after_manual !! l = Some d).
  { intros l d Hl. split; eapply lookup_weaken; eauto. }
  split; [exact Hall|]. intros t d _. apply Hall.
Qed.

(** Resetting the frp core of the sample store: the stored spec stays as
    it was, and the node receives a copy with the derived server address
    and port. *)
Lemma reset_keeps_stored_specs_witness :
  let after :=
    (_reset_core (app_with quiet_manager) quiet_env [frp_tunnel; chisel_tunnel]
       "frp" sample_state).2 in
  st_heap sample_state !! 1%positive = Some frp_stored_spec
  /\ st_heap after !! 1%positive = Some frp_stored_spec
  /\ st_log after
     = [EvStop "frp" "t1"; EvSleep 500; EvStart "frp" "t1" frp_stored_spec;
        EvApply "n1" "t1" "frp" None
          (<["server_port" := PInt 7000]>
             (<["server_addr" := PStr "203.0.113.7"]> frp_stored_spec));
        EvSleep 500].
Proof.
  intros after.
  assert (Hbefore : st_heap sample_state !! 1%positive = Some frp_stored_spec)
    by reflexivity.
  split; [exact Hbefore|]. split.
  - exact (proj1 (proj1 (reset_keeps_stored_specs (app_with quiet_manager)
                           quiet_env [frp_tunnel; chisel_tunnel] ∅ "frp" 0
                           sample_state) 1%positive frp_stored_spec Hbefore)).
  - vm_compute. reflexivity.
Defined.





(** Enabling the timer of a core that was never reset: the committed row
    has a next reset and no last reset, so the next reset is not the last
    reset plus the interval. *)
Lemma reset_invariant_counterexample :
  exists row configs',
    update_reset_config ∅ "frp"
      {| upd_enabled := Some true; upd_interval_minutes := None |} 1000
    = Ok (row, configs')
    /\ enabled row = true
    /\ last_reset row = None
    /\ next_reset row = Some (1000 + minutes 10)
    /\ ~ reset_invariant row.
Proof.
  eexists _, _. split; [vm_compute; reflexivity|].
  split; [reflexivity|]. split; [reflexivity|]. split; [reflexivity|].
  intros [_ Hnext]. destruct (Hnext eq_refl) as (T & HT & _). discriminate HT.
Qed.

Lemma update_reset_config_row
    (configs : gmap string CoreResetConfig) (c : string)
    (upd : ResetConfigUpdate) (now : Z) (row : CoreResetConfig)
    (configs' : gmap string CoreResetConfig) :
  update_reset_config configs c upd now = Ok (row, configs') ->
  let old := default (default_config c) (configs !! c) in
  configs' = <[c := row]> configs
  /\ enabled row = default (enabled old) (upd_enabled upd)
  /\ last_reset row = last_reset old
  /\ (interval_minutes row = interval_minutes old
      \/ 1 <= interval_minutes row)
  /\ next_reset row
     = if enabled row && negb (interval_minutes row =? 0)
       then Some (default now (last_reset row) + minutes (interval_minutes row))
       else None.
Proof.
  unfold update_reset_config.
  destruct (negb (bool_decide (c ∈ CORES))); [discriminate|].
  set (old := default (default_config c) (configs !! c)).
  destruct (upd_interval_minutes upd) as [i|].
  - destruct (i <? 1) eqn:Hi; [discriminate|].
    intros [= <- <-]. simpl. repeat split; [right; lia|].
    destruct (default (enabled old) (upd_enabled upd) && negb (i =? 0));
      [destruct (last_reset old)|]; reflexivity.
  - intros [= <- <-]. simpl. repeat split; [left; reflexivity|].
    destruct (default (enabled old) (upd_enabled upd)
              && negb (interval_minutes old =? 0));
      [destruct (last_reset old)|]; reflexivity.
Qed.

(** C5 (amended). After an update of a reset configuration whose stored
    interval, if there is a row, is at least one minute: the committed row
    is the one in the table, its interval is at least one minute, its next
    reset is null if and only if it is disabled, and when it is enabled
    the next reset is the last reset plus the interval if the core has
    been reset before, and the time of the update plus the interval if it
    never has.  After a firing of the scheduler at time [now], the last
    reset is [now] and the next reset is the last reset plus the interval,
    so the invariant holds as the specification words it. *)
Theorem reset_schedule_invariant
    (configs : gmap string CoreResetConfig) (c : string)
    (upd : ResetConfigUpdate) (now : Z) (row : CoreResetConfig)
    (configs' : gmap string CoreResetConfig) :
  (forall old, configs !! c = Some old -> 1 <= interval_minutes old) ->
  update_reset_config configs c upd now = Ok (row, configs') ->
  configs' !! c = Some row
  /\ 1 <= interval_minutes row
  /\ (next_reset row = None <-> enabled row = false)
  /\ (enabled row = true ->
      next_reset row
      = Some (default now (last_reset row) + minutes (interval_minutes row)))
  /\ (forall T, enabled row = true -> last_reset row = Some T ->
        next_reset row = Some (T + minutes (interval_minutes row)))
  /\ (forall app env tunnels s config nr,
        enabled config = true -> next_reset config = Some nr -> nr <= now ->
        exists s',
          Main.scheduler_step app env tunnels now config s
          = (Ok (Main.fire now config), s')
          /\ last_reset (Main.fire now config) = Some now
          /\ reset_invariant (Main.fire now config)).
Proof.
  intros Hold Hupd.
  destruct (update_reset_config_row configs c upd now row configs' Hupd)
    as (-> & Hen & Hlast & Hint & Hnext).
  assert (Hpos : 1 <= interval_minutes row).
  { destruct Hint as [Heq|Hge]; [|exact Hge]. rewrite Heq.
    destruct (configs !! c) as [old|] eqn:E; simpl; [apply Hold; reflexivity|lia]. }
  assert (Hnz : (interval_minutes row =? 0) = false) by lia.
  rewrite Hnz, andb_true_r in Hnext.
  split; [apply lookup_insert_eq|]. split; [exact Hpos|].
  split; [|split; [|split]].
  - rewrite Hnext. destruct (enabled row); split; congruence.
  - intros Htrue. rewrite Hnext, Htrue. reflexivity.
  - intros T Htrue HT. rewrite Hnext, Htrue, HT. reflexivity.
  - intros app env tunnels s config nr Hen' Hnr Hle.
    destruct (reset_core_total app env tunnels (core config) s) as ([] & s' & Hrun).
    exists s'. unfold Main.scheduler_step. rewrite Hnr.
    destruct (nr <=? now) eqn:E; [|lia]. rewrite Hrun.
    split; [reflexivity|]. split; [reflexivity|].
    unfold reset_invariant, Main.fire. simpl. rewrite Hen'. split.
    + split; congruence.
    + intros _. exists now. split; reflexivity.
Qed.

(** Changing the interval of the sample row to 30 minutes. *)
Lemma reset_schedule_invariant_witness :
  exists row configs',
    update_reset_config {[ "frp" := ten_minutes ]} "frp"
      {| upd_enabled := None; upd_interval_minutes := Some 30 |} 1000
    = Ok (row, configs')
    /\ next_reset row = Some (0 + minutes 30).
Proof.
  eexists _, _.
  assert (Hold : forall old,
            ({[ "frp" := ten_minutes ]} : gmap string CoreResetConfig) !! "frp"
            = Some old -> 1 <= interval_minutes old).
  { intros old Hrow. vm_compute in Hrow. injection Hrow as <-.
    vm_compute. discriminate. }
  assert (Hupd : update_reset_config {[ "frp" := ten_minutes ]} "frp"
                   {| upd_enabled := None; upd_interval_minutes := Some 30 |} 1000
                 = Ok ({| core := "frp"; enabled := true; interval_minutes := 30;
                          last_reset := Some 0; next_reset := Some (minutes 30);
                          updated_at := Some 1000 |},
                       <["frp" := {| core := "frp"; enabled := true;
                                     interval_minutes := 30;
                                     last_reset := Some 0;
                                     next_reset := Some (minutes 30);
                                     updated_at := Some 1000 |}]>
                         {[ "frp" := ten_minutes ]}))
    by (vm_compute; reflexivity).
  split; [exact Hupd|].
  exact (proj1 (proj2 (proj2 (proj2 (proj2
           (reset_schedule_invariant _ _ _ _ _ _ Hold Hupd))))) 0 eq_refl eq_refl).
Defined.

End ResetFacts.

(** ** Chisel derivation *)

Module ChiselFacts.
Import CoreHealth ResetSamples.

Lemma listen_port_chosen (spec : pydict) (listen : pyval) :
  spec !! "listen_port" = Some listen -> truthy listen = true ->
  py_or (py_or (get spec "listen_port") (get spec "remote_port"))
        (get spec "server_port") = listen.
Proof.
  intros Hl Ht. unfold get at 1. rewrite Hl. simpl.
  unfold py_or. rewrite Ht, Ht. reflexivity.
Qed.

Lemma to_int_ok (v : pyval) (p : Z) : py_int v = Some p -> to_int v = Ok p.
Proof. intros H. unfold to_int. rewrite H. reflexivity. Qed.

(** The dict a reset sends for a chisel tunnel. *)
Lemma chisel_spec_derived (env : Env) (node : Node) (spec : pydict)
    (listen : pyval) (p : Z) (host : pyval) :
  spec !! "listen_port" = Some listen -> truthy listen = true ->
  py_int listen = Some p ->
  truthy (get spec "control_port") = false ->
  reset_panel_host env node spec = Ok host ->
  chisel_spec env node spec
  = Ok (Some {[ "server_url" := PStr (server_url_of env host (p + 10000));
                "reverse_spec" :=
                  get_or spec "reverse_spec"
                    (PStr ("R:" +:+ str_of_Z p +:+ ":"
                           +:+ py_str (get_or spec "local_addr" (PStr "127.0.0.1"))
                           +:+ ":" +:+ py_str (get spec "local_port")));
                "auth" := get spec "auth";
                "fingerprint" := get spec "fingerprint" ]}).
Proof.
  intros Hl Ht Hp Hc Hhost. unfold chisel_spec.
  rewrite (listen_port_chosen spec listen Hl Ht), Ht, Hc.
  rewrite (to_int_ok listen p Hp). simpl. rewrite Hhost. reflexivity.
Qed.

(** The overlay a startup restore computes for a chisel tunnel. *)
Lemma restore_chisel_derived (env : Env) (node : Node) (spec : pydict)
    (listen : pyval) (p : Z) (host : pyval) :
  spec !! "listen_port" = Some listen -> truthy listen = true ->
  py_int listen = Some p ->
  truthy (get spec "control_port") = false ->
  Main.restore_panel_host env node spec = Ok host ->
  Main.restore_chisel_fields env node spec
  = Ok (Some (server_url_of env host (p + 10000), p)).
Proof.
  intros Hl Ht Hp Hc Hhost. unfold Main.restore_chisel_fields.
  rewrite (listen_port_chosen spec listen Hl Ht), Ht, Hc.
  rewrite (to_int_ok listen p Hp). simpl. rewrite Hhost. reflexivity.
Qed.

(** The overlay as it lands in the copy of the spec. *)
Lemma chisel_overlay_writes (env : Env) (node : Node) (spec : pydict)
    (url : string) (p : Z) (l : loc) (s : st) :
  st_heap s !! l = Some spec ->
  Main.restore_chisel_fields env node spec = Ok (Some (url, p)) ->
  st_heap (Main.chisel_overlay env node l s).2 !! l
  = Some (<["remote_port" := PInt p]>
            (<["reverse_port" := PInt p]> (<["server_url" := PStr url]> spec))).
Proof.
  intros Hl Hf. unfold Main.chisel_overlay, deref, dict_set, bind, lift.
  cbn. rewrite Hl. cbn. rewrite Hf. cbn.
  rewrite !lookup_alter_eq, Hl. reflexivity.
Qed.

(** A startup restore of the sample chisel tunnel (listen port 9000, no
    control port, no reverse spec): the node is sent the control port
    19000 in the server URL and a reverse port, but no reverse spec. *)
Lemma chisel_restore_counterexample :
  exists sent,
    st_log (Main._restore_node_tunnels quiet_env [chisel_tunnel] sample_state).2
    = [EvApply "n1" "t2" "chisel" (Some "tcp") sent]
    /\ sent !! "server_url" = Some (PStr "http://203.0.113.7:19000")
    /\ sent !! "reverse_port" = Some (PInt 9000)
    /\ sent !! "reverse_spec" <> Some (PStr "R:9000:127.0.0.1:8080").
Proof.
  eexists. split; [vm_compute; reflexivity|].
  split; [vm_compute; reflexivity|]. split; [vm_compute; reflexivity|].
  vm_compute. discriminate.
Qed.

(** C4 (amended). For a chisel tunnel whose spec has a listen port [p]
    and no control port: the spec a reset derives for the node has the
    server URL on control port [p + 10000] and a reverse spec that is the
    one of the stored spec, [R:<p>:<local_addr>:<local_port>] when there
    is none; the startup restore derives the same server URL on control
    port [p + 10000], and writes it with reverse port [p] and remote port
    [p] into its copy of the spec, whose reverse spec entry it leaves as
    stored. *)
Theorem chisel_control_port_and_reverse_spec
    (env : Env) (node : Node) (spec : pydict) (listen : pyval) (p : Z) :
  spec !! "listen_port" = Some listen ->
  truthy listen = true ->
  py_int listen = Some p ->
  truthy (get spec "control_port") = false ->
  let default_reverse :=
    PStr ("R:" +:+ str_of_Z p +:+ ":"
          +:+ py_str (get_or spec "local_addr" (PStr "127.0.0.1"))
          +:+ ":" +:+ py_str (get spec "local_port")) in
  (forall host, reset_panel_host env node spec = Ok host ->
     exists sent,
       chisel_spec env node spec = Ok (Some sent)
       /\ sent !! "server_url" = Some (PStr (server_url_of env host (p + 10000)))
       /\ sent !! "reverse_spec"
          = Some (default default_reverse (spec !! "reverse_spec"))
       /\ (spec !! "reverse_spec" = None ->
           sent !! "reverse_spec" = Some default_reverse))
  /\ (forall host, Main.restore_panel_host env node spec = Ok host ->
        Main.restore_chisel_fields env node spec
        = Ok (Some (server_url_of env host (p + 10000), p))
        /\ forall l s, st_heap s !! l = Some spec ->
             exists sent,
               st_heap (Main.chisel_overlay env node l s).2 !! l = Some sent
               /\ sent !! "server_url"
                  = Some (PStr (server_url_of env host (p + 10000)))
               /\ sent !! "reverse_port" = Some (PInt p)
               /\ sent !! "remote_port" = Some (PInt p)
               /\ sent !! "reverse_spec" = spec !! "reverse_spec")
  /\ (forall host, is_valid_ipv6_address env host = false ->
        server_url_of env host (p + 10000)
        = "http://" +:+ py_str host +:+ ":" +:+ str_of_Z (p + 10000)).
Proof.
  intros Hl Ht Hp Hc default_reverse. split; [|split].
  - intros host Hhost. eexists. split.
    + exact (chisel_spec_derived env node spec listen p host Hl Ht Hp Hc Hhost).
    + split; [reflexivity|].
      assert (Hrev : forall sent : pydict,
                sent = {[ "server_url" :=
                            PStr (server_url_of env host (p + 10000));
                          "reverse_spec" := get_or spec "reverse_spec" default_reverse;
                          "auth" := get spec "auth";
                          "fingerprint" := get spec "fingerprint" ]} ->
                sent !! "reverse_spec"
                = Some (default default_reverse (spec !! "reverse_spec"))).
      { intros sent ->. rewrite lookup_insert_ne by discriminate.
        rewrite lookup_insert_eq. reflexivity. }
      split; [apply Hrev; reflexivity|].
      intros Hnone. etransitivity; [apply Hrev; reflexivity|].
      rewrite Hnone. reflexivity.
  - intros host Hhost.
    pose proof (restore_chisel_derived env node spec listen p host
                  Hl Ht Hp Hc Hhost) as Hf.
    split; [exact Hf|]. intros l s Hspec. eexists. split.
    + exact (chisel_overlay_writes env node spec _ p l s Hspec Hf).
    + split; [|split; [|split]].
      * rewrite !lookup_insert_ne by discriminate. apply lookup_insert_eq.
      * rewrite lookup_insert_ne by discriminate. apply lookup_insert_eq.
      * apply lookup_insert_eq.
      * rewrite !lookup_insert_ne by discriminate. reflexivity.
  - intros host Hv. unfold server_url_of. rewrite Hv. reflexivity.
Qed.

(** The sample chisel spec, listen port 9000: control port 19000 and
    reverse spec R:9000:127.0.0.1:8080 on a reset. *)
Lemma chisel_control_port_and_reverse_spec_witness :
  exists sent,
    chisel_spec quiet_env panel_node chisel_stored_spec = Ok (Some sent)
    /\ sent !! "server_url" = Some (PStr "http://203.0.113.7:19000")
    /\ sent !! "reverse_spec" = Some (PStr "R:9000:127.0.0.1:8080").
Proof.
  destruct (proj1 (chisel_control_port_and_reverse_spec quiet_env panel_node
                     chisel_stored_spec (PInt 9000) 9000
                     eq_refl eq_refl eq_refl eq_refl)
              (PStr "203.0.113.7") eq_refl)
    as (sent & Hsent & Hurl & _ & Hrev).
  exists sent. split; [exact Hsent|]. split; [exact Hurl|].
  exact (Hrev eq_refl).
Defined.

End ChiselFacts.

(** ** Startup restore loops *)

Module RestoreFacts.
Import CoreHealth ResetSamples EffectFacts.






(** C3 (the code at the failing input). Two active rathole tunnels, the
    start of the first one raising: the rathole loop ends there and the
    second tunnel is never started, whereas the backhaul loop, given the
    same failure on its first tunnel, goes on and starts the second. *)
Theorem rathole_restore_stops_at_first_failure :
  st_log (Main._restore_rathole_servers failing_managers
            [tunnel_of "rathole" "t1" 1%positive;
             tunnel_of "rathole" "t2" 2%positive] restore_state).2
  = [EvStart "rathole" "t1"
       {[ "remote_addr" := PStr "203.0.113.7:2333"; "token" := PStr "secret";
          "proxy_port" := PInt 2333; "use_ipv6" := PBool false ]}]
  /\ st_log (Main._restore_backhaul_servers failing_managers
               [tunnel_of "backhaul" "t1" 1%positive;
                tunnel_of "backhaul" "t2" 2%positive] restore_state).2
     = [EvStart "backhaul" "t1" rathole_stored_spec;
        EvStart "backhaul" "t2" rathole_stored_spec].
Proof. split; vm_compute; reflexivity. Qed.

End RestoreFacts.

(** ** Shutdown *)

Module ShutdownFacts.
Import ResetSamples.



End ShutdownFacts.

(** ** More on the node client *)

Module TransportFacts.
Import NodeClient Samples NodeClientFacts.





Lemma rstrip_app_char (c : ascii) (s : string) :
  rstrip c (s +:+ String c EmptyString) = rstrip c s.
Proof.
  induction s as [|a s IH].
  - simpl. rewrite Ascii.eqb_refl. reflexivity.
  - rewrite append_cons. simpl. rewrite IH. reflexivity.
Qed.

Lemma rstrip_last (c : ascii) (s : string) : last_char (rstrip c s) <> Some c.
Proof.
  induction s as [|a s IH]; [discriminate|].
  simpl. destruct (rstrip c s) as [|b r] eqn:E.
  - destruct (Ascii.eqb_spec a c); simpl; congruence.
  - exact IH.
Qed.

(** X2. The base of every URL the client builds is the node address
    without its trailing slashes: it never ends with a slash, an address
    stored with one more slash gives the same base, every request of
    [send_to_node] goes to the base followed by the endpoint or by the
    status path, and [get_tunnel_status] makes one GET of the status
    path. *)
Theorem request_urls (db : Db) (net : Net) (nid : string) (node : Node)
    (addr : string) (using_frp : bool) (endpoint tunnel_id : string)
    (data : pydict) :
  db_nodes db !! nid = Some node ->
  _get_node_address db node = Ok (addr, using_frp) ->
  let base := rstrip "/" addr in
  last_char base <> Some "/"%char
  /\ rstrip "/" (addr +:+ "/") = base
  /\ Forall (fun e => forall u, request_url e = Some u ->
                        u = base +:+ "/api/agent/status"
                        \/ u = base +:+ endpoint)
            (send_to_node db net nid endpoint data).1
  /\ (get_tunnel_status db net nid tunnel_id).1
     = [EvGet (base +:+ "/api/agent/status") timeout].
Proof.
  intros Hnode Haddr base.
  split; [apply rstrip_last|]. split; [apply rstrip_app_char|]. split.
  - rewrite (send_to_node_unfold db net nid node addr using_frp endpoint data
               Hnode Haddr).
    cbn [fst]. apply Forall_app. split.
    + destruct using_frp; [|constructor].
      constructor; [|constructor].
      intros u' [= <-]. left. reflexivity.
    + eapply Forall_impl; [apply retry_loop_events|].
      intros e [-> | ->] u; simpl; [intros [= <-]; right; reflexivity|discriminate].
  - unfold get_tunnel_status. rewrite Hnode, Haddr. reflexivity.
Qed.

Lemma request_urls_witness :
  (get_tunnel_status relay_db flaky_net "n1" EmptyString).1
  = [EvGet "http://127.0.0.1:55000/api/agent/status" timeout].
Proof.
  exact (proj2 (proj2 (proj2
           (request_urls relay_db flaky_net "n1" relayed_node
              "http://127.0.0.1:55000" true "/api/agent/tunnels/apply"
              EmptyString ∅ eq_refl eq_refl)))).
Defined.

End TransportFacts.

(** ** The panel address, from the node's registration to the panel *)

Module RegistrationFacts.
Import NodeClient Samples NodeClientFacts PanelClient.

Lemma substring_full (s : string) : String.substring 0 (String.length s) s = s.
Proof. induction s as [|a s IH]; simpl; [reflexivity|]. rewrite IH. reflexivity. Qed.

Lemma append_nonempty (s1 s2 : string) :
  s2 <> EmptyString -> s1 +:+ s2 <> EmptyString.
Proof.
  intros Hne. destruct s1; [rewrite append_empty_l; exact Hne|].
  rewrite append_cons. discriminate.
Qed.

Lemma append_assoc_str (s1 s2 s3 : string) :
  (s1 +:+ s2) +:+ s3 = s1 +:+ (s2 +:+ s3).
Proof.
  induction s1 as [|a s1 IH]; [reflexivity|].
  rewrite !append_cons, IH. reflexivity.
Qed.

Lemma split_once_eq (sep s : string) :
  split_once sep s
  = if String.prefix sep s
    then Some (EmptyString,
               String.substring (String.length sep)
                 (String.length s - String.length sep) s)
    else match s with
         | EmptyString => None
         | String a s' =>
             match split_once sep s' with
             | Some (x, y) => Some (String a x, y)
             | None => None
             end
         end.
Proof. destruct s; reflexivity. Qed.

Lemma prefix_head_ne (c a : ascii) (t s : string) :
  a <> c -> String.prefix (String c t) (String a s) = false.
Proof. intros Hne. simpl. destruct (ascii_dec c a); congruence. Qed.

Lemma prefix_head_eq (c : ascii) (t s : string) :
  String.prefix (String c t) (String c s) = String.prefix t s.
Proof. simpl. destruct (ascii_dec c c); congruence. Qed.

Lemma contains_cons (c a : ascii) (s : string) :
  contains (String c EmptyString) (String a s) = false ->
  a <> c /\ contains (String c EmptyString) s = false.
Proof.
  unfold contains. rewrite split_once_eq.
  destruct (ascii_dec a c) as [->|Hne].
  - rewrite prefix_head_eq. destruct s; discriminate.
  - rewrite (prefix_head_ne c a _ _ Hne). intros H. split; [exact Hne|].
    destruct (split_once (String c EmptyString) s) as [[x y]|];
      [discriminate|reflexivity].
Qed.

Lemma substring_tail (n : nat) (a : ascii) (s : string) (m : nat) :
  String.substring (S n) m (String a s) = String.substring n m s.
Proof. reflexivity. Qed.

(** Splitting at a character that does not occur before it. *)
Lemma split_once_char (c : ascii) (h rest : string) :
  contains (String c EmptyString) h = false ->
  split_once (String c EmptyString) (h +:+ String c rest) = Some (h, rest).
Proof.
  induction h as [|a h IH]; intros Hno.
  - rewrite append_empty_l, split_once_eq, prefix_head_eq.
    destruct rest; simpl; [reflexivity|].
    rewrite ?Nat.sub_0_r, substring_full. reflexivity.
  - destruct (contains_cons c a h Hno) as [Hne Hh].
    rewrite append_cons, split_once_eq, (prefix_head_ne c a _ _ Hne).
    rewrite (IH Hh). reflexivity.
Qed.

Lemma split_once_char_none (c : ascii) (h : string) :
  contains (String c EmptyString) h = false ->
  split_once (String c EmptyString) h = None.
Proof.
  unfold contains. destruct (split_once _ h); [discriminate|reflexivity].
Qed.

(** Splitting at the scheme separator, for a scheme without a colon. *)
Lemma split_once_scheme (scheme rest : string) :
  contains ":" scheme = false ->
  split_once "://" (scheme +:+ "://" +:+ rest) = Some (scheme, rest).
Proof.
  induction scheme as [|a x IH]; intros Hno.
  - rewrite append_empty_l.
    change ("://" +:+ rest) with (String ":" (String "/" (String "/" rest))).
    rewrite split_once_eq, !prefix_head_eq.
    destruct rest; simpl; [reflexivity|].
    rewrite ?Nat.sub_0_r, substring_full. reflexivity.
  - destruct (contains_cons ":" a x Hno) as [Hne Hx].
    rewrite append_cons, split_once_eq, (prefix_head_ne ":" a _ _ Hne).
    rewrite (IH Hx). reflexivity.
Qed.

(** X3. The panel and the node agent read the same host out of a panel
    address: the host the panel derives from the [panel_address] a node
    registered with ([host_of], used when a reset or a restore builds the
    address the node must dial) is the host the node's registration and
    its relay-status report were sent to. *)
Theorem panel_host_agreement (panel_address : string) :
  host_of (PStr panel_address) = Ok (split_panel_address panel_address).1.2
  /\ report_host panel_address = (split_panel_address panel_address).1.2.
Proof.
  unfold host_of, report_host, split_panel_address.
  destruct (split_once "://" panel_address) as [[protocol rest]|].
  - destruct (split_once ":" rest) as [[h p]|]; split; reflexivity.
  - destruct (split_once ":" panel_address) as [[h p]|]; split; reflexivity.
Qed.

(** X4. A panel address [scheme://host:port] whose scheme and host hold
    no colon is taken apart into exactly these three parts, with port 443
    when the port is left out; the panel derives the host from it and
    the node registers at [http://host:<api port>/api/nodes] whatever the
    scheme. *)
Theorem panel_address_round_trip (scheme host port : string) (api_port : pyval) :
  contains ":" scheme = false ->
  contains ":" host = false ->
  split_panel_address (scheme +:+ "://" +:+ host +:+ ":" +:+ port)
  = (scheme, host, port)
  /\ split_panel_address (scheme +:+ "://" +:+ host) = (scheme, host, "443")
  /\ host_of (PStr (scheme +:+ "://" +:+ host +:+ ":" +:+ port)) = Ok host
  /\ host_of (PStr (scheme +:+ "://" +:+ host)) = Ok host
  /\ registration_url (scheme +:+ "://" +:+ host +:+ ":" +:+ port) api_port
     = "http://" +:+ host +:+ ":" +:+ py_str api_port +:+ "/api/nodes".
Proof.
  intros Hs Hh.
  assert (H1 : split_panel_address (scheme +:+ "://" +:+ host +:+ ":" +:+ port)
               = (scheme, host, port)).
  { unfold split_panel_address. rewrite (split_once_scheme scheme _ Hs).
    change (":" +:+ port) with (String ":" port).
    rewrite (split_once_char ":" host port Hh). reflexivity. }
  assert (H2 : split_panel_address (scheme +:+ "://" +:+ host)
               = (scheme, host, "443")).
  { unfold split_panel_address. rewrite (split_once_scheme scheme _ Hs).
    rewrite (split_once_char_none ":" host Hh). reflexivity. }
  split; [exact H1|]. split; [exact H2|].
  split; [|split].
  - rewrite (proj1 (panel_host_agreement _)), H1. reflexivity.
  - rewrite (proj1 (panel_host_agreement _)), H2. reflexivity.
  - unfold registration_url, panel_api_url. rewrite H1. cbn [fst snd].
    rewrite !append_assoc_str. reflexivity.
Qed.

Lemma panel_address_round_trip_witness :
  split_panel_address ("https" +:+ "://" +:+ "203.0.113.7" +:+ ":" +:+ "8000")
  = ("https", "203.0.113.7", "8000").
Proof.
  exact (proj1 (panel_address_round_trip "https" "203.0.113.7" "8000"
                  (PInt 8000) eq_refl eq_refl)).
Defined.

Lemma single_attempt_trace (net : Net) (url : string) (data : pydict) :
  (retry_loop net url data false 1 [0%nat] PNone).1 = [EvPost url data timeout].
Proof.
  simpl. destruct (read_reply (net_post net 0%nat url data)) as [v|[]];
    reflexivity.
Qed.

(** X5. A node stored with the metadata its agent registers (API address
    [http://<ip>:<port>] with an integer port), while relay is off: the
    address is used as registered, and a delivery is one POST to that
    address followed by the endpoint, with no probe, no pause and no
    second attempt whatever the network answers. *)
Theorem registered_node_direct_delivery
    (db : Db) (net : Net) (nid : string) (node : Node)
    (node_ip : string) (node_api_port : Z) (node_name panel_address role : string)
    (endpoint : string) (data : pydict) :
  db_nodes db !! nid = Some node ->
  node_metadata node
  = Some (registration_metadata node_ip node_api_port node_name panel_address role) ->
  _get_frp_settings db = None ->
  let address := "http://" +:+ node_ip +:+ ":" +:+ str_of_Z node_api_port in
  _get_node_address db node = Ok (address, false)
  /\ (send_to_node db net nid endpoint data).1
     = [EvPost (address +:+ endpoint) data timeout].
Proof.
  intros Hnode Hmd Hoff address.
  assert (Haddr : _get_node_address db node = Ok (address, false)).
  { unfold _get_node_address. rewrite Hoff. unfold direct_address.
    rewrite Hmd. reflexivity. }
  split; [exact Haddr|].
  rewrite (send_to_node_unfold db net nid node address false endpoint data
             Hnode Haddr).
  cbn [fst]. change (seq 0 (Z.to_nat (max_retries_of false))) with [0%nat].
  change (max_retries_of false) with 1. rewrite single_attempt_trace.
  assert (Hstrip : rstrip "/" address = address).
  { apply rstrip_unchanged.
    destruct (last_char_str_of_Z node_api_port) as (c & Hc & Hdig).
    assert (Hne : str_of_Z node_api_port <> EmptyString)
      by (intros E; rewrite E in Hc; discriminate).
    unfold address.
    rewrite !last_char_app; auto using append_nonempty.
    rewrite Hc. intros [= ->]. discriminate Hdig. }
  rewrite Hstrip. reflexivity.
Qed.

Lemma registered_node_direct_delivery_witness :
  let node := {| node_id := "n9";
                 node_metadata :=
                   Some (registration_metadata "10.0.0.5" 8888 "edge-1"
                           "https://203.0.113.7:8000" "iran");
                 fingerprint := "abc123" |} in
  _get_node_address {| db_nodes := {[ "n9" := node ]}; db_settings := ∅ |} node
  = Ok ("http://10.0.0.5:8888", false).
Proof.
  intros node.
  exact (proj1 (registered_node_direct_delivery
                  {| db_nodes := {[ "n9" := node ]}; db_settings := ∅ |}
                  flaky_net "n9" node "10.0.0.5" 8888 "edge-1"
                  "https://203.0.113.7:8000" "iran" "/api/agent/status" ∅
                  eq_refl eq_refl eq_refl)).
Defined.

End RegistrationFacts.

(** ** More on the health report *)

Module HealthMore.
Import CoreHealth ResetSamples HealthFacts.

(** X6. In every entry of the health report the status text and the
    flag agree: the status is [healthy] when the panel side is healthy and
    [error] otherwise; the initial [unknown] never reaches the report. *)
Theorem panel_status_agrees
    (app : AppState) (env : Env) (tunnels : list Tunnel)
    (nodes : gmap string Node) (h : CoreHealthResponse) :
  h ∈ get_core_health app env tunnels nodes ->
  panel_status h = if panel_healthy h then "healthy" else "error".
Proof.
  intros Hin. unfold get_core_health in Hin.
  apply list_elem_of_fmap in Hin as (c & -> & Hc).
  pose proof (core_health_panel app env tunnels nodes c) as Hp. simpl in Hp.
  destruct (panel_health (manager_of app c) (active_of c tunnels))
    as [status healthy] eqn:E.
  injection Hp as -> ->. unfold panel_health in E.
  destruct (manager_of app c) as [m|].
  - destruct (get_active_servers m) as [servers|e].
    + destruct (0 <? length (active_of c tunnels))%nat.
      * injection E as <- <-. reflexivity.
      * injection E as <- <-. reflexivity.
    + injection E as <- <-. reflexivity.
  - injection E as <- <-.
    destruct (active_of c tunnels); reflexivity.
Qed.

Lemma panel_status_agrees_witness :
  panel_status (core_health (app_with quiet_manager) quiet_env [] ∅ "frp")
  = "healthy".
Proof.
  assert (Hin : core_health (app_with quiet_manager) quiet_env [] ∅ "frp"
                ∈ get_core_health (app_with quiet_manager) quiet_env [] ∅).
  { apply list_elem_of_fmap. exists "frp". split; [reflexivity|].
    unfold CORES. repeat constructor. }
  exact (panel_status_agrees _ _ _ _ _ Hin).
Defined.

Lemma foldl_insert_lookup {V} (nodes : gmap string Node) (f : string -> V)
    (l : list string) (acc : gmap string V) (k : string) :
  foldl (fun acc nid =>
           match nodes !! nid with
           | None => acc
           | Some _ => <[nid := f nid]> acc
           end) acc l !! k
  = if decide (k ∈ l /\ is_Some (nodes !! k)) then Some (f k) else acc !! k.
Proof.
  revert acc. induction l as [|x l IH]; intros acc; cbn [foldl].
  - case_decide as Hd; [destruct Hd as [Hin _]; inversion Hin|reflexivity].
  - rewrite IH. destruct (decide (k ∈ l /\ is_Some (nodes !! k))) as [[Hin Hn]|Hno].
    + rewrite decide_True; [reflexivity|]. split; [right; exact Hin|exact Hn].
    + destruct (decide (k = x)) as [->|Hne].
      * destruct (nodes !! x) as [n|] eqn:Hx.
        -- rewrite lookup_insert_eq, decide_True; [reflexivity|].
           split; [left|eauto].
        -- rewrite decide_False; [reflexivity|].
           intros [_ [n Hn]]. discriminate.
      * assert (Hacc : match nodes !! x with
                       | Some _ => <[x := f x]> acc
                       | None => acc
                       end !! k = acc !! k).
        { destruct (nodes !! x); [apply lookup_insert_ne; congruence|reflexivity]. }
        rewrite Hacc, decide_False; [reflexivity|].
        intros [Hin Hn]. apply Hno. split; [|exact Hn].
        apply elem_of_cons in Hin as [?|?]; [congruence|assumption].
Qed.

Lemma length_filter_pos (t : Tunnel) (ts : list Tunnel) (nid : string) :
  t ∈ ts -> t_node_id t = Some nid ->
  (1 <= length (filter (fun t => t_node_id t = Some nid) ts))%nat.
Proof.
  intros Hin Hn.
  assert (Hf : t ∈ filter (fun t => t_node_id t = Some nid) ts)
    by (apply list_elem_of_filter; split; assumption).
  destruct (filter (fun t => t_node_id t = Some nid) ts);
    [inversion Hf|simpl; lia].
Qed.

Lemma node_ids_of_spec (ts : list Tunnel) (nid : string) :
  nid ∈ node_ids_of ts <->
  exists t, t ∈ ts /\ t_node_id t = Some nid /\ nid <> EmptyString.
Proof.
  unfold node_ids_of. rewrite elem_of_list_to_set, list_elem_of_omap.
  split.
  - intros (t & Hin & Ht). exists t. split; [exact Hin|].
    unfold has_node in Ht. destruct (t_node_id t) as [n|]; [|discriminate].
    destruct (String.eqb_spec n EmptyString) as [Heq|Hne]; simpl in Ht;
      [discriminate|].
    injection Ht as <-. split; [reflexivity|exact Hne].
  - intros (t & Hin & Hn & Hne). exists t. split; [exact Hin|].
    unfold has_node. rewrite Hn.
    destruct (String.eqb_spec nid EmptyString); [congruence|reflexivity].
Qed.

(** X7. The node part of a core's health entry has one record for each
    node that exists in the store and is referenced, by a non-empty id, by
    an active tunnel of the core, and no other.  A record is healthy
    exactly when the status call returned a dict whose ["status"] is
    ["ok"], its status is [error] exactly when the call raised, and it
    counts at least one active tunnel. *)
Theorem node_status_entries
    (app : AppState) (env : Env) (tunnels : list Tunnel)
    (nodes : gmap string Node) (c nid : string) :
  let h := core_health app env tunnels nodes c in
  let ts := active_of c tunnels in
  (is_Some (nodes_status h !! nid) <->
   (exists t, t ∈ ts /\ t_node_id t = Some nid /\ nid <> EmptyString)
   /\ is_Some (nodes !! nid))
  /\ (forall ns, nodes_status h !! nid = Some ns ->
        ns = node_health env ts nid
        /\ (ns_healthy ns = true <->
            exists d, client_status env nid = Ok d
                      /\ d !! "status" = Some (PStr "ok"))
        /\ (ns_status ns = "error" <-> exists e, client_status env nid = Raise e)
        /\ (1 <= ns_active_tunnels ns)%nat).
Proof.
  intros h ts.
  assert (Hlook : nodes_status h !! nid
                  = if decide (nid ∈ elements (node_ids_of ts)
                               /\ is_Some (nodes !! nid))
                    then Some (node_health env ts nid) else None).
  { unfold h, core_health. fold ts.
    destruct (panel_health (manager_of app c) ts). cbn [nodes_status].
    rewrite foldl_insert_lookup, lookup_empty. reflexivity. }
  assert (Hids : nid ∈ elements (node_ids_of ts) <->
                 exists t, t ∈ ts /\ t_node_id t = Some nid /\ nid <> EmptyString).
  { rewrite elem_of_elements. apply node_ids_of_spec. }
  split.
  - rewrite Hlook. case_decide as Hno; [destruct Hno as [Hin Hn]|].
    + split; [intros _; split; [apply Hids, Hin|exact Hn]|eauto].
    + split; [intros [x Hx]; discriminate|].
      intros [Ht Hn]. exfalso. apply Hno. split; [apply Hids, Ht|exact Hn].
  - intros ns Hns. rewrite Hlook in Hns.
    case_decide as Hno; [destruct Hno as [Hin Hn]|discriminate].
    injection Hns as <-. split; [reflexivity|].
    apply Hids in Hin as (t & Ht & Htn & _).
    unfold node_health.
    destruct (client_status env nid) as [d|e] eqn:Hst.
    + destruct (dict_truthy d
                && bool_decide (get d "status" = PStr "ok")) eqn:Hok;
        cbn [ns_healthy ns_status ns_active_tunnels].
      * apply andb_true_iff in Hok as [_ Hok]. apply bool_decide_eq_true in Hok.
        split; [split; [intros _|reflexivity]|].
        -- exists d. split; [reflexivity|]. unfold get in Hok.
           destruct (d !! "status") as [v|]; simpl in Hok; congruence.
        -- split; [split; [discriminate|intros [e He]; discriminate]|].
           apply (length_filter_pos t); [exact Ht|exact Htn].
      * split; [split; [discriminate|]|].
        -- intros (d' & [= <-] & Hd). exfalso.
           rewrite (dict_truthy_lookup d _ _ Hd) in Hok. unfold get in Hok.
           rewrite Hd in Hok. vm_compute in Hok. discriminate.
        -- split; [split; [discriminate|intros [e He]; discriminate]|].
           apply (length_filter_pos t); [exact Ht|exact Htn].
    + cbn [ns_healthy ns_status ns_active_tunnels].
      split; [split; [discriminate|intros (d & Hd & _); discriminate]|].
      split; [split; eauto|].
      apply (length_filter_pos t); [exact Ht|exact Htn].
Qed.

Lemma node_status_entries_witness :
  ns_healthy (node_health quiet_env (active_of "frp" [frp_tunnel]) "n1") = true.
Proof.
  assert (H : nodes_status
                (core_health (app_with quiet_manager) quiet_env [frp_tunnel]
                   {[ "n1" := panel_node ]} "frp") !! "n1"
              = Some (node_health quiet_env (active_of "frp" [frp_tunnel]) "n1"))
    by (vm_compute; reflexivity).
  destruct (proj2 (node_status_entries (app_with quiet_manager) quiet_env
                     [frp_tunnel] {[ "n1" := panel_node ]} "frp" "n1") _ H)
    as (_ & Hhealthy & _).
  apply Hhealthy. eexists. split; reflexivity.
Defined.

End HealthMore.

(** ** The reset configuration endpoints *)

Module AdminFacts.
Import CoreHealth ResetSamples ResetConfigs EffectFacts ResetFacts.

Lemma cores_cases (c : string) :
  c ∈ CORES <-> c = "backhaul" \/ c = "rathole" \/ c = "chisel" \/ c = "frp".
Proof.
  unfold CORES. rewrite !elem_of_cons, elem_of_nil. tauto.
Qed.

Ltac reset_configs_cases configs E1 E2 E3 E4 :=
  unfold get_reset_configs, CORES; cbn [foldl fst snd];
  destruct (configs !! "backhaul") eqn:E1, (configs !! "rathole") eqn:E2,
    (configs !! "chisel") eqn:E3, (configs !! "frp") eqn:E4;
  cbn [fst snd];
  repeat (rewrite ?lookup_insert_ne by discriminate;
          rewrite ?E1, ?E2, ?E3, ?E4; cbn [fst snd]).

Lemma get_reset_configs_out (configs : gmap string CoreResetConfig) :
  (get_reset_configs configs).1
  = map (fun c => response_of (settled configs c)) CORES.
Proof.
  unfold settled. reset_configs_cases configs E1 E2 E3 E4;
    cbn [map]; rewrite E1, E2, E3, E4; reflexivity.
Qed.

Lemma get_reset_configs_rows (configs : gmap string CoreResetConfig) (c : string) :
  (get_reset_configs configs).2 !! c
  = if decide (c ∈ CORES) then Some (settled configs c) else configs !! c.
Proof.
  destruct (decide (c ∈ CORES)) as [Hin|Hout].
  - apply cores_cases in Hin. unfold settled.
    reset_configs_cases configs E1 E2 E3 E4;
      destruct Hin as [-> | [-> | [-> | ->]]];
      rewrite ?E1, ?E2, ?E3, ?E4; simplify_map_eq; reflexivity.
  - assert (Hne : c <> "backhaul" /\ c <> "rathole" /\ c <> "chisel" /\ c <> "frp").
    { rewrite cores_cases in Hout. tauto. }
    destruct Hne as (H1 & H2 & H3 & H4).
    reset_configs_cases configs E1 E2 E3 E4;
      rewrite ?lookup_insert_ne by congruence; reflexivity.
Qed.

Lemma get_reset_configs_settled (configs : gmap string CoreResetConfig) :
  (forall c, c ∈ CORES -> is_Some (configs !! c)) ->
  (get_reset_configs configs).2 = configs.
Proof.
  intros Hall. apply map_eq. intros c. rewrite get_reset_configs_rows.
  destruct (decide (c ∈ CORES)) as [Hin|]; [|reflexivity].
  destruct (Hall c Hin) as [row Hrow]. unfold settled. rewrite Hrow. reflexivity.
Qed.

(** X8. Reading the reset configurations answers with one entry per
    core, in the order of [CORES], each showing the stored row of the core
    or, when there is none, the default (disabled, 10 minutes, never
    reset), which is then stored.  Rows that exist are left as they are,
    rows of other keys are not touched, and a second read answers the same
    and changes nothing. *)
Theorem reset_configs_defaults (configs : gmap string CoreResetConfig) :
  let out := (get_reset_configs configs).1 in
  let configs' := (get_reset_configs configs).2 in
  out = map (fun c => response_of (settled configs c)) CORES
  /\ (forall c, c ∈ CORES ->
        configs' !! c = Some (settled configs c)
        /\ (configs !! c = None ->
            configs' !! c = Some (default_config c)
            /\ enabled (default_config c) = false
            /\ interval_minutes (default_config c) = 10
            /\ next_reset (default_config c) = None))
  /\ (forall c, c ∉ CORES -> configs' !! c = configs !! c)
  /\ (forall c row, configs !! c = Some row -> configs' !! c = Some row)
  /\ get_reset_configs configs' = (out, configs').
Proof.
  intros out configs'.
  assert (Hrows : forall c, c ∈ CORES -> configs' !! c = Some (settled configs c)).
  { intros c Hc. unfold configs'. rewrite get_reset_configs_rows.
    rewrite decide_True by exact Hc. reflexivity. }
  split; [apply get_reset_configs_out|]. split; [|split; [|split]].
  - intros c Hc. split; [exact (Hrows c Hc)|].
    intros Hnone. rewrite (Hrows c Hc). unfold settled. rewrite Hnone.
    repeat split; reflexivity.
  - intros c Hc. unfold configs'. rewrite get_reset_configs_rows.
    rewrite decide_False by exact Hc. reflexivity.
  - intros c row Hrow. unfold configs'. rewrite get_reset_configs_rows.
    destruct (decide (c ∈ CORES)); [|exact Hrow].
    unfold settled. rewrite Hrow. reflexivity.
  - assert (Hsame : (get_reset_configs configs').2 = configs').
    { apply get_reset_configs_settled. intros c Hc. rewrite (Hrows c Hc). eauto. }
    assert (Hout : (get_reset_configs configs').1 = out).
    { rewrite get_reset_configs_out. unfold out. rewrite get_reset_configs_out.
      apply map_ext_in. intros c Hc. f_equal. unfold settled at 1.
      rewrite (Hrows c); [reflexivity|]. apply list_elem_of_In. exact Hc. }
    destruct (get_reset_configs configs') as [o m]. simpl in *. congruence.
Qed.

Lemma reset_configs_defaults_witness :
  (get_reset_configs {[ "frp" := ten_minutes ]}).2 !! "frp" = Some ten_minutes
  /\ (get_reset_configs {[ "frp" := ten_minutes ]}).2 !! "chisel"
     = Some (default_config "chisel").
Proof.
  pose proof (reset_configs_defaults {[ "frp" := ten_minutes ]})
    as (_ & Hcores & _ & Hkeep & _).
  split.
  - exact (Hkeep "frp" ten_minutes eq_refl).
  - assert (Hc : "chisel" ∈ CORES) by (unfold CORES; repeat constructor).
    exact (proj1 (proj2 (Hcores "chisel" Hc) eq_refl)).
Defined.



(** X10. An accepted update writes the row of its core and no other row,
    never changes when the core was last reset, and is idempotent:
    applying the same update again at the same time commits the same row
    and leaves the table as it is. *)
Theorem update_reset_config_frame
    (configs : gmap string CoreResetConfig) (c : string)
    (upd : ResetConfigUpdate) (now : Z) (row : CoreResetConfig)
    (configs' : gmap string CoreResetConfig) :
  update_reset_config configs c upd now = Ok (row, configs') ->
  (forall c', c' <> c -> configs' !! c' = configs !! c')
  /\ configs' !! c = Some row
  /\ last_reset row = last_reset (settled configs c)
  /\ update_reset_config configs' c upd now = Ok (row, configs').
Proof.
  intros Hupd.
  destruct (update_reset_config_row configs c upd now row configs' Hupd)
    as (-> & Hen & Hlast & _ & _).
  split; [intros c' Hne; apply lookup_insert_ne; congruence|].
  split; [apply lookup_insert_eq|]. split; [exact Hlast|].
  unfold update_reset_config in *.
  destruct (negb (bool_decide (c ∈ CORES))); [discriminate|].
  rewrite lookup_insert_eq. cbn [default].
  destruct (upd_interval_minutes upd) as [i|].
  - destruct (i <? 1); [discriminate|]. injection Hupd as <-.
    cbn [enabled interval_minutes last_reset core].
    rewrite insert_insert_eq.
    destruct (upd_enabled upd); reflexivity.
  - injection Hupd as <-.
    cbn [enabled interval_minutes last_reset core].
    rewrite insert_insert_eq.
    destruct (upd_enabled upd); reflexivity.
Qed.

Lemma update_reset_config_frame_witness :
  exists row configs',
    update_reset_config {[ "frp" := ten_minutes ]} "chisel"
      {| upd_enabled := Some true; upd_interval_minutes := Some 5 |} 1000
    = Ok (row, configs')
    /\ configs' !! "frp" = Some ten_minutes.
Proof.
  eexists _, _.
  assert (Hupd : update_reset_config {[ "frp" := ten_minutes ]} "chisel"
                   {| upd_enabled := Some true; upd_interval_minutes := Some 5 |} 1000
                 = Ok ({| core := "chisel"; enabled := true; interval_minutes := 5;
                          last_reset := None; next_reset := Some (1000 + minutes 5);
                          updated_at := Some 1000 |},
                       <["chisel" := {| core := "chisel"; enabled := true;
                                        interval_minutes := 5; last_reset := None;
                                        next_reset := Some (1000 + minutes 5);
                                        updated_at := Some 1000 |}]>
                         {[ "frp" := ten_minutes ]}))
    by (vm_compute; reflexivity).
  split; [exact Hupd|].
  rewrite (proj1 (update_reset_config_frame _ _ _ _ _ _ Hupd) "frp")
    by discriminate.
  reflexivity.
Defined.



End AdminFacts.

(** ** What a reset and the restore loops record *)

Module TraceFacts.
Import CoreHealth ResetSamples EffectFacts.

Lemma silent_bind {A B} (m : M A) (f : A -> M B) :
  silent m -> (forall a, silent (f a)) -> silent (bind m f).
Proof.
  intros Hm Hf s. specialize (Hm s). unfold bind.
  destruct (m s) as [[a|e] s1]; simpl in *; [|exact Hm].
  rewrite (Hf a s1). exact Hm.
Qed.

Lemma silent_pure {A} (m : M A) :
  (forall s, st_log (m s).2 = st_log s) -> silent m.
Proof. intros H. exact H. Qed.

Ltac silent_step :=
  match goal with
  | |- silent (bind _ _) => apply silent_bind; [|intros ?]
  | |- silent (if ?b then _ else _) => destruct b
  | |- silent (match ?x with _ => _ end) => destruct x
  | |- silent _ => solve [intros ?; reflexivity]
  end.

Lemma silent_dict_copy (l : loc) : silent (dict_copy l).
Proof. unfold dict_copy, dict_new, deref. repeat silent_step. Qed.

Lemma silent_dict_new (d : pydict) : silent (dict_new d).
Proof. unfold dict_new. repeat silent_step. Qed.

Lemma silent_frp_overlay (env : Env) (node : Node) (l : loc) :
  silent (frp_overlay env node l).
Proof. unfold frp_overlay, dict_set, deref, int_. repeat silent_step. Qed.

Lemma silent_node_spec (env : Env) (c : string) (node : Node) (t : Tunnel) :
  silent (node_spec env c node t).
Proof.
  unfold node_spec, frp_spec.
  repeat first [apply silent_dict_copy | apply silent_dict_new
               | apply silent_frp_overlay | silent_step].
Qed.

Lemma emits_silent (P : event -> Prop) {A} (m : M A) : silent m -> emits P m.
Proof.
  intros H s. exists []. rewrite app_nil_r. split; [apply H|constructor].
Qed.

Lemma emits_bind (P : event -> Prop) {A B} (m : M A) (f : A -> M B) :
  emits P m -> (forall a, emits P (f a)) -> emits P (bind m f).
Proof.
  intros Hm Hf s. destruct (Hm s) as (evs1 & E1 & F1). unfold bind.
  destruct (m s) as [[a|e] s1]; simpl in *; [|eauto].
  destruct (Hf a s1) as (evs2 & E2 & F2). exists (evs1 ++ evs2)%list.
  rewrite E2, E1, app_assoc. split; [reflexivity|apply Forall_app; auto].
Qed.

Lemma emits_try_except (P : event -> Prop) (m : M unit) :
  emits P m -> emits P (try_except m).
Proof.
  intros Hm s. destruct (Hm s) as (evs & E & F). unfold try_except.
  destruct (m s) as [[[]|e] s1]; eauto.
Qed.

Lemma emits_for_each (P : event -> Prop) {A} (l : list A) (body : A -> M unit) :
  (forall x, x ∈ l -> emits P (body x)) -> emits P (for_each l body).
Proof.
  induction l as [|x l IH]; intros Hb; simpl.
  - apply emits_silent. intros s. reflexivity.
  - apply emits_bind; [apply Hb; left|].
    intros _. apply IH. intros y Hy. apply Hb. right. exact Hy.
Qed.

Lemma emits_emit (P : event -> Prop) (e : event) : P e -> emits P (emit e).
Proof.
  intros He s. exists [e]. split; [reflexivity|]. constructor; [exact He|constructor].
Qed.

Lemma emits_call_stop (P : event -> Prop) (c : string) (m : Manager) (tid : string) :
  P (EvStop c tid) -> emits P (call_stop c m tid).
Proof.
  intros He. unfold call_stop. apply emits_bind; [apply emits_emit, He|].
  intros _. destruct (stop_server m tid); apply emits_silent; intros s; reflexivity.
Qed.

Lemma emits_call_start (P : event -> Prop) (c : string) (m : Manager)
    (tid : string) (args : pydict) :
  P (EvStart c tid args) -> emits P (call_start c m tid args).
Proof.
  intros He. unfold call_start. apply emits_bind; [apply emits_emit, He|].
  intros _. destruct (start_server m tid args);
    apply emits_silent; intros s; reflexivity.
Qed.

(** Break a computation along its binds and branches; what is left are
    the recorded events. *)
Ltac emits_step :=
  match goal with
  | |- emits _ (bind _ _) => apply emits_bind; [|intros ?]
  | |- emits _ (try_except _) => apply emits_try_except
  | |- emits _ (call_stop _ _ _) => apply emits_call_stop
  | |- emits _ (call_start _ _ _ _) => apply emits_call_start
  | |- emits _ (sleep _) => apply emits_emit
  | |- emits _ (emit _) => apply emits_emit
  | |- emits _ (if ?b then _ else _) => destruct b
  | |- emits _ (match ?x with _ => _ end) => destruct x
  | |- emits _ _ => solve [apply emits_silent; intros ?; reflexivity]
  end.

Lemma restart_local_events (app : AppState) (c : string) (ts : list Tunnel) :
  emits (reset_event c ts) (restart_local app c ts).
Proof.
  unfold restart_local.
  repeat match goal with
         | |- emits _ (if decide (c = ?k) then _ else _) =>
             destruct (decide (c = k)) as [->|?]
         | |- emits _ (match ?x with Some _ => _ | None => _ end) => destruct x
         end;
    try (apply emits_silent; intros ?; reflexivity);
    apply emits_for_each; intros t Ht;
    unfold restart_backhaul, restart_rathole, restart_chisel, restart_frp, int_, deref;
    repeat emits_step; simpl; eauto.
Qed.

Lemma reset_node_tunnel_events (env : Env) (c nid : string) (node : Node)
    (ts : list Tunnel) (t : Tunnel) :
  t ∈ ts -> t_node_id t = Some nid ->
  emits (reset_event c ts) (reset_node_tunnel env c nid node t).
Proof.
  intros Ht Hn. unfold reset_node_tunnel. apply emits_try_except.
  apply emits_bind; [apply emits_silent, silent_node_spec|].
  intros [l|]; [|apply emits_silent; intros ?; reflexivity].
  unfold deref. repeat emits_step; simpl; eauto.
Qed.

(** X12. A reset of a core records stops and starts under the name of
    that core only, for active tunnels of that core only; every delivery
    it makes is for such a tunnel and goes to the node the tunnel
    references; beyond these it only pauses.  Tunnels of other cores and
    inactive tunnels are never stopped, started or re-applied. *)
Theorem reset_touches_own_tunnels
    (app : AppState) (env : Env) (tunnels : list Tunnel) (c : string) (s : st) :
  exists evs,
    st_log (_reset_core app env tunnels c s).2 = (st_log s ++ evs)%list
    /\ Forall (reset_event c (active_of c tunnels)) evs
    /\ forall c' tid, (EvStop c' tid ∈ evs \/ exists args, EvStart c' tid args ∈ evs) ->
          c' = c /\ exists t, t ∈ tunnels /\ t_id t = tid
                              /\ t_core t = c /\ t_status t = "active".
Proof.
  assert (Hem : emits (reset_event c (active_of c tunnels))
                  (_reset_core app env tunnels c)).
  { unfold _reset_core. apply emits_bind; [apply restart_local_events|].
    intros _. apply emits_for_each. intros nid _.
    apply emits_bind; [apply emits_silent; intros ?; reflexivity|].
    intros nodes. destruct (nodes !! nid) as [node|];
      [|apply emits_silent; intros ?; reflexivity].
    apply emits_for_each. intros t Ht.
    apply list_elem_of_filter in Ht as [Hn Ht].
    apply reset_node_tunnel_events; assumption. }
  destruct (Hem s) as (evs & Hlog & Hall). exists evs.
  split; [exact Hlog|]. split; [exact Hall|].
  rewrite Forall_forall in Hall.
  assert (Hact : forall t, t ∈ active_of c tunnels ->
            t ∈ tunnels /\ t_core t = c /\ t_status t = "active").
  { intros t Ht. apply list_elem_of_filter in Ht as [[Hc Hs] Ht]. auto. }
  intros c' tid [Hin|[args Hin]]; apply Hall in Hin;
    destruct Hin as (-> & t & Ht & Hid);
    (split; [reflexivity|]); exists t;
    destruct (Hact t Ht) as (? & ? & ?); auto.
Qed.

Lemma reset_touches_own_tunnels_witness :
  exists evs,
    st_log (_reset_core (app_with quiet_manager) quiet_env
              [frp_tunnel; chisel_tunnel] "frp" sample_state).2
    = (st_log sample_state ++ evs)%list
    /\ Forall (reset_event "frp" (active_of "frp" [frp_tunnel; chisel_tunnel])) evs.
Proof.
  destruct (reset_touches_own_tunnels (app_with quiet_manager) quiet_env
              [frp_tunnel; chisel_tunnel] "frp" sample_state)
    as (evs & Hlog & Hall & _).
  exists evs. split; [exact Hlog|exact Hall].
Defined.

Ltac restart_cases :=
  repeat match goal with
         | |- context [if ?b then _ else _] => destruct b; cbn
         | |- context [match py_int ?v with _ => _ end] => destruct (py_int v); cbn
         end;
  first
    [ exists []; split; [rewrite app_nil_r; reflexivity|left; reflexivity]
    | eexists; split;
      [rewrite <- ?app_assoc; reflexivity
      |first [ right; left; reflexivity
             | right; right; left; reflexivity
             | right; right; right; eexists; reflexivity ]] ].

(** X13. The panel-side restart of one tunnel during a reset records, in
    this order, the stop of the tunnel, a pause of half a second and the
    start of the same tunnel, and nothing else; the sequence is cut short
    where a step raises (or empty when the spec lacks what the start
    needs), so a start is never recorded without the stop and the pause
    before it. *)
Theorem restart_stops_before_start (m : Manager) (t : Tunnel) (s : st) :
  (exists evs, st_log (restart_backhaul m t s).2 = (st_log s ++ evs)%list
               /\ restart_trace "backhaul" (t_id t) evs)
  /\ (exists evs, st_log (restart_rathole m t s).2 = (st_log s ++ evs)%list
                  /\ restart_trace "rathole" (t_id t) evs)
  /\ (exists evs, st_log (restart_chisel m t s).2 = (st_log s ++ evs)%list
                  /\ restart_trace "chisel" (t_id t) evs)
  /\ (exists evs, st_log (restart_frp m t s).2 = (st_log s ++ evs)%list
                  /\ restart_trace "frp" (t_id t) evs).
Proof.
  unfold restart_backhaul, restart_rathole, restart_chisel, restart_frp,
    restart_trace, try_except, bind, call_stop, call_start, sleep, int_, lift,
    to_int, deref, get_heap, emit, ret, raise.
  repeat split; cbn; restart_cases.
Qed.

End TraceFacts.

(** ** Derivation of the node-facing specs *)

Module DerivationFacts.
Import CoreHealth ResetSamples.

Lemma public_ip_usable (env : Env) (ip : pyval) :
  public_ip env = Some ip -> truthy ip = true /\ in_strs ip local_hosts = false.
Proof.
  unfold public_ip.
  set (v := py_or (getenv env "PANEL_PUBLIC_IP") (getenv env "PANEL_IP")).
  destruct (truthy v) eqn:Ht; [|discriminate].
  destruct (in_strs v ["localhost"; "127.0.0.1"; "::1"; "0.0.0.0"; EmptyString])
    eqn:Hin; [discriminate|].
  intros [= <-]. split; [exact Ht|].
  destruct v as [| |z|x]; try reflexivity. unfold in_strs, local_hosts in *.
  apply bool_decide_eq_false in Hin. apply bool_decide_eq_false.
  intros Hx. apply Hin.
  repeat (apply elem_of_cons in Hx as [->|Hx]; [repeat constructor|]).
  inversion Hx.
Qed.

(** The host after the first two steps, on which the fallbacks act. *)
Lemma reset_panel_host_final (env : Env) (h0 h : pyval) :
  (if negb (truthy h0) || in_strs h0 local_hosts
   then match public_ip env with
        | Some ip => Ok ip
        | None => Ok (PStr "127.0.0.1")
        end
   else Ok h0) = Ok h ->
  truthy h = true
  /\ (in_strs h local_hosts = true -> h = PStr "127.0.0.1" /\ public_ip env = None).
Proof.
  destruct (truthy h0) eqn:Ht; simpl.
  - destruct (in_strs h0 local_hosts) eqn:Hl.
    + destruct (public_ip env) as [ip|] eqn:Hip; intros [= <-].
      * destruct (public_ip_usable env ip Hip) as [Htr Hno].
        split; [exact Htr|]. rewrite Hno. discriminate.
      * split; [reflexivity|]. intros _. split; reflexivity.
    + intros [= <-]. split; [exact Ht|]. rewrite Hl. discriminate.
  - destruct (public_ip env) as [ip|] eqn:Hip; intros [= <-].
    + destruct (public_ip_usable env ip Hip) as [Htr Hno].
      split; [exact Htr|]. rewrite Hno. discriminate.
    + split; [reflexivity|]. intros _. split; reflexivity.
Qed.

Lemma restore_panel_host_final (node : Node) (h0 h : pyval) :
  (if negb (truthy h0) || in_strs h0 local_hosts
   then rbind (metadata_get node "ip_address" PNone)
          (fun ip =>
             let node_ip := py_or ip (PStr (fingerprint node)) in
             if truthy node_ip && negb (in_strs node_ip local_hosts)
             then Ok node_ip else Ok (PStr "localhost"))
   else Ok h0) = Ok h ->
  truthy h = true /\ (in_strs h local_hosts = true -> h = PStr "localhost").
Proof.
  assert (Hfall : rbind (metadata_get node "ip_address" PNone)
            (fun ip =>
               let node_ip := py_or ip (PStr (fingerprint node)) in
               if truthy node_ip && negb (in_strs node_ip local_hosts)
               then Ok node_ip else Ok (PStr "localhost")) = Ok h ->
            truthy h = true /\ (in_strs h local_hosts = true -> h = PStr "localhost")).
  { destruct (metadata_get node "ip_address" PNone) as [ip|e]; [|discriminate].
    simpl. set (node_ip := py_or ip (PStr (fingerprint node))).
    destruct (truthy node_ip) eqn:Ht; simpl.
    - destruct (in_strs node_ip local_hosts) eqn:Hl; simpl; intros [= <-].
      + split; [reflexivity|reflexivity].
      + split; [exact Ht|]. rewrite Hl. discriminate.
    - intros [= <-]. split; reflexivity. }
  destruct (truthy h0) eqn:Ht; simpl; [|exact Hfall].
  destruct (in_strs h0 local_hosts) eqn:Hl; [exact Hfall|].
  intros [= <-]. split; [exact Ht|]. rewrite Hl. discriminate.
Qed.

(** X14. The host a node is told to dial is never empty.  On a reset it
    is a loopback name only as the last resort [127.0.0.1], when no
    usable public IP is in the environment; on a startup restore only as
    the last resort [localhost].  A host given in the spec that is not a
    loopback name is used as it is on both paths. *)
Theorem panel_host_resolution (env : Env) (node : Node) (spec : pydict) :
  (forall h, reset_panel_host env node spec = Ok h ->
     truthy h = true
     /\ (in_strs h local_hosts = true ->
         h = PStr "127.0.0.1" /\ public_ip env = None))
  /\ (forall h, Main.restore_panel_host env node spec = Ok h ->
        truthy h = true
        /\ (in_strs h local_hosts = true -> h = PStr "localhost"))
  /\ (forall explicit, spec !! "panel_host" = Some explicit ->
        truthy explicit = true -> in_strs explicit local_hosts = false ->
        reset_panel_host env node spec = Ok explicit
        /\ Main.restore_panel_host env node spec = Ok explicit).
Proof.
  split; [|split].
  - intros h. unfold reset_panel_host.
    destruct (if negb (truthy (get spec "panel_host"))
              then rbind (metadata_get node "panel_address" (PStr EmptyString))
                     (fun panel_address =>
                        if truthy panel_address
                        then rbind (host_of panel_address) (fun h => Ok (PStr h))
                        else Ok (get spec "panel_host"))
              else Ok (get spec "panel_host")) as [h0|e]; [|discriminate].
    apply reset_panel_host_final.
  - intros h. unfold Main.restore_panel_host.
    destruct (if negb (truthy (get spec "panel_host"))
              then rbind (metadata_get node "panel_address" (PStr EmptyString))
                     (fun panel_address =>
                        if truthy panel_address
                        then rbind (host_of panel_address) (fun h => Ok (PStr h))
                        else Ok (get spec "panel_host"))
              else Ok (get spec "panel_host")) as [h0|e]; [|discriminate].
    cbn [rbind].
    set (h1 := if negb (truthy h0) || in_strs h0 local_hosts
               then if truthy (panel_domain env) then panel_domain env else h0
               else h0).
    apply restore_panel_host_final.
  - intros explicit Hspec Ht Hl.
    split.
    + unfold reset_panel_host, get. cbv zeta. rewrite Hspec.
      cbn [default]. unfold id. rewrite Ht. cbn [negb rbind]. rewrite ?Ht, ?Hl. reflexivity.
    + unfold Main.restore_panel_host, get. cbv zeta. rewrite Hspec.
      cbn [default]. unfold id. rewrite Ht. cbn [negb rbind]. rewrite ?Ht, ?Hl. cbn [negb orb].
      rewrite ?Ht, ?Hl. reflexivity.
Qed.

Lemma panel_host_resolution_witness :
  reset_panel_host quiet_env panel_node {[ "panel_host" := PStr "panel.example" ]}
  = Ok (PStr "panel.example").
Proof.
  exact (proj1 (proj2 (proj2 (panel_host_resolution quiet_env panel_node
                                {[ "panel_host" := PStr "panel.example" ]}))
                  (PStr "panel.example") eq_refl eq_refl eq_refl)).
Defined.

Lemma alter_known {V} (f : V -> V) (l : loc) (h : gmap loc V) (x : V) :
  h !! l = Some x -> alter f l h = <[l := f x]> h.
Proof.
  intros Hl. apply map_eq. intros l'. destruct (decide (l' = l)) as [->|Hne].
  - rewrite lookup_alter_eq, lookup_insert_eq, Hl. reflexivity.
  - rewrite lookup_alter_ne, lookup_insert_ne by congruence. reflexivity.
Qed.

Ltac decide_cores :=
  repeat match goal with
         | |- context [decide (?a = ?b)] =>
             let Heq := fresh "Heq" in
             destruct (decide (a = b)) as [Heq|Heq];
             [try discriminate Heq|try congruence]
         end.

(** X15. On a reset a backhaul tunnel is re-applied with its stored spec
    as it is: the node receives exactly the stored mapping, followed by
    the pause when the delivery did not raise. *)
Theorem backhaul_spec_passes_through
    (env : Env) (nid : string) (node : Node) (t : Tunnel) (spec : pydict)
    (s : st) :
  st_heap s !! t_spec t = Some spec ->
  st_log (reset_node_tunnel env "backhaul" nid node t s).2
  = (st_log s
     ++ EvApply nid (t_id t) "backhaul" None spec
        :: (if client_apply env nid (t_id t) spec then [] else [EvSleep 500]))%list.
Proof.
  intros Hspec.
  unfold reset_node_tunnel, node_spec, try_except, bind, dict_copy, dict_new,
    deref, get_heap, put_heap, sleep, emit, ret, raise.
  cbn. rewrite Hspec. cbn. decide_cores. cbn. rewrite lookup_insert_eq. cbn.
  destruct (client_apply env nid (t_id t) spec); cbn;
    rewrite <- ?app_assoc; reflexivity.
Qed.

Lemma backhaul_spec_passes_through_witness :
  st_log (reset_node_tunnel quiet_env "backhaul" "n1" panel_node
            (tunnel_of "backhaul" "t1" 1%positive) restore_state).2
  = [EvApply "n1" "t1" "backhaul" None rathole_stored_spec; EvSleep 500].
Proof.
  exact (backhaul_spec_passes_through quiet_env "n1" panel_node
           (tunnel_of "backhaul" "t1" 1%positive) rathole_stored_spec
           restore_state eq_refl).
Defined.

(** X16. The FRP overlay, on a reset and on a startup restore alike.
    With a panel address in the node's metadata it writes two entries into
    its copy of the spec, the panel's host as [server_addr] (in brackets
    for an IPv6 literal) and the bind port, 7000 when the spec has none,
    as [server_port], and leaves every other entry of the copy as stored.
    Without a panel address it writes the public IP of the environment as
    [server_addr] and nothing else, and when there is no usable public IP
    either it writes nothing and the tunnel is skipped. *)
Theorem frp_overlay_result
    (env : Env) (node : Node) (l : loc) (spec : pydict) (s : st)
    (panel_address : pyval) :
  st_heap s !! l = Some spec ->
  metadata_get node "panel_address" (PStr EmptyString) = Ok panel_address ->
  (forall h p, truthy panel_address = true -> host_of panel_address = Ok h ->
      py_int (get_or spec "bind_port" (PInt 7000)) = Some p ->
      let server_addr :=
        if is_valid_ipv6_address env (PStr h) then "[" +:+ h +:+ "]" else h in
      let sent :=
        <["server_port" := PInt p]> (<["server_addr" := PStr server_addr]> spec) in
      frp_overlay env node l s
      = (Ok true, {| st_heap := <[l := sent]> (st_heap s);
                     st_nodes := st_nodes s; st_log := st_log s |})
      /\ (forall k, k <> "server_addr" -> k <> "server_port" ->
            sent !! k = spec !! k)
      /\ (spec !! "bind_port" = None -> p = 7000))
  /\ (forall ip, truthy panel_address = false -> public_ip env = Some ip ->
        frp_overlay env node l s
        = (Ok true, {| st_heap := <[l := <["server_addr" := ip]> spec]> (st_heap s);
                       st_nodes := st_nodes s; st_log := st_log s |}))
  /\ (truthy panel_address = false -> public_ip env = None ->
      frp_overlay env node l s = (Ok false, s)).
Proof.
  intros Hspec Hmeta. split; [|split].
  - intros h p Ht Hh Hp server_addr sent. split; [|split].
    + unfold frp_overlay, bind, lift, deref, dict_set, int_, to_int, get_heap,
        put_heap, ret.
      rewrite Hmeta. cbn. rewrite Ht, Hh. cbn. rewrite Hspec. cbn.
      rewrite Hp. cbn. fold server_addr.
      rewrite (alter_known _ l (st_heap s) spec Hspec).
      rewrite (alter_known _ l _ (<["server_addr" := PStr server_addr]> spec))
        by apply lookup_insert_eq.
      rewrite insert_insert_eq. reflexivity.
    + intros k H1 H2. unfold sent.
      rewrite !lookup_insert_ne by congruence. reflexivity.
    + intros Hnone. unfold get_or in Hp. rewrite Hnone in Hp.
      injection Hp as <-. reflexivity.
  - intros ip Ht Hip.
    unfold frp_overlay, bind, lift, dict_set, get_heap, put_heap, ret.
    rewrite Hmeta. cbn. rewrite Ht, Hip. cbn.
    rewrite (alter_known _ l (st_heap s) spec Hspec). reflexivity.
  - intros Ht Hip. unfold frp_overlay, bind, lift, ret.
    rewrite Hmeta. cbn. rewrite Ht, Hip. destruct s; reflexivity.
Qed.

Lemma frp_overlay_result_witness :
  frp_overlay quiet_env panel_node 1%positive sample_state
  = (Ok true,
     {| st_heap :=
          <[1%positive :=
              <["server_port" := PInt 7000]>
                (<["server_addr" := PStr "203.0.113.7"]> frp_stored_spec)]>
            (st_heap sample_state);
        st_nodes := st_nodes sample_state; st_log := st_log sample_state |}).
Proof.
  exact (proj1 (proj1 (frp_overlay_result quiet_env panel_node 1%positive
                         frp_stored_spec sample_state
                         (PStr "http://203.0.113.7:8000") eq_refl eq_refl)
                  "203.0.113.7" 7000 eq_refl eq_refl eq_refl)).
Defined.

Lemma listen_port_falsy (spec : pydict) :
  truthy (get spec "listen_port") = false ->
  truthy (get spec "remote_port") = false ->
  truthy (get spec "server_port") = false ->
  truthy (py_or (py_or (get spec "listen_port") (get spec "remote_port"))
                (get spec "server_port")) = false.
Proof.
  intros H1 H2 H3. unfold py_or. rewrite H1, H2. exact H3.
Qed.

(** X17. A chisel tunnel whose spec has no listen port, remote port or
    server port: a reset derives nothing for it and delivers nothing to
    its node, and the startup restore leaves its copy of the spec as
    stored.  Conversely a reset skips a chisel tunnel in this way only
    when all three ports are missing. *)
Theorem chisel_without_port_skipped
    (env : Env) (nid : string) (node : Node) (t : Tunnel) (spec : pydict)
    (s : st) :
  st_heap s !! t_spec t = Some spec ->
  (truthy (get spec "listen_port") = false ->
   truthy (get spec "remote_port") = false ->
   truthy (get spec "server_port") = false ->
   chisel_spec env node spec = Ok None
   /\ st_log (reset_node_tunnel env "chisel" nid node t s).2 = st_log s
   /\ Main.restore_chisel_fields env node spec = Ok None
   /\ Main.chisel_overlay env node (t_spec t) s = (Ok tt, s))
  /\ (chisel_spec env node spec = Ok None ->
      truthy (get spec "listen_port") = false
      /\ truthy (get spec "remote_port") = false
      /\ truthy (get spec "server_port") = false).
Proof.
  intros Hspec. split.
  - intros H1 H2 H3.
    pose proof (listen_port_falsy spec H1 H2 H3) as Hno.
    assert (Hc : chisel_spec env node spec = Ok None)
      by (unfold chisel_spec; rewrite Hno; reflexivity).
    assert (Hr : Main.restore_chisel_fields env node spec = Ok None)
      by (unfold Main.restore_chisel_fields; rewrite Hno; reflexivity).
    split; [exact Hc|]. split; [|split; [exact Hr|]].
    + unfold reset_node_tunnel, node_spec, try_except, bind, dict_copy,
        dict_new, deref, get_heap, put_heap, lift, ret.
      cbn. rewrite Hspec. cbn. decide_cores. cbn. rewrite Hc. reflexivity.
    + unfold Main.chisel_overlay, bind, deref, get_heap, lift, ret.
      cbn. rewrite Hspec. cbn. rewrite Hr. destruct s; reflexivity.
  - set (listen := py_or (py_or (get spec "listen_port") (get spec "remote_port"))
                         (get spec "server_port")).
    destruct (truthy listen) eqn:Hl.
    + unfold chisel_spec. fold listen. rewrite Hl.
      destruct (if truthy (get spec "control_port")
                then to_int (get spec "control_port")
                else rbind (to_int listen) (fun p => Ok (p + 10000)))
        as [cp|e]; cbn [rbind]; [|discriminate].
      destruct (to_int listen) as [rp|e]; cbn [rbind]; [|discriminate].
      destruct (reset_panel_host env node spec) as [h|e]; cbn [rbind];
        discriminate.
    + intros _. unfold listen, py_or in Hl.
      destruct (truthy (get spec "listen_port")) eqn:H1.
      * rewrite H1 in Hl. congruence.
      * destruct (truthy (get spec "remote_port")) eqn:H2; [congruence|].
        repeat split. exact Hl.
Qed.

Lemma chisel_without_port_skipped_witness :
  st_log (reset_node_tunnel quiet_env "chisel" "n1" panel_node
            (tunnel_of "chisel" "t1" 1%positive) sample_state).2
  = st_log sample_state.
Proof.
  exact (proj1 (proj2 (proj1 (chisel_without_port_skipped quiet_env "n1"
                                panel_node (tunnel_of "chisel" "t1" 1%positive)
                                frp_stored_spec sample_state eq_refl)
                         eq_refl eq_refl eq_refl))).
Defined.

End DerivationFacts.

(** ** More on the startup restore *)

Module RestoreMore.
Import CoreHealth ResetSamples EffectFacts TraceFacts RestoreFacts Forwards.






(** The tunnels of a core a restore loop may start. *)
Lemma own_tunnel (c : string) (tunnels : list Tunnel) (t : Tunnel) :
  t ∈ active tunnels -> t_core t = c ->
  exists t', t' ∈ filter (fun t => t_core t = c) (active tunnels)
             /\ t_id t' = t_id t.
Proof.
  intros Ht Hc. exists t. split; [|reflexivity].
  apply list_elem_of_filter. split; assumption.
Qed.

Ltac own_core Hc :=
  match goal with
  | |- emits _ (if negb (bool_decide ?P) then _ else _) =>
      destruct (bool_decide P) eqn:Hc; cbn [negb];
      [apply bool_decide_eq_true in Hc
      |apply emits_silent; intros ?; reflexivity]
  end.

(** X19. The panel-side restore loops only start servers: each records
    starts under the name of its own core, for active tunnels of that core,
    and nothing else; no loop stops a server, pauses, or starts a tunnel of
    another core or an inactive one.  The forwards loop does so for the
    forwarder and the tunnels of core [xray]. *)
Theorem restores_start_own_core
    (ms : Main.Managers) (gost : Manager) (tunnels : list Tunnel) :
  let own c := filter (fun t => t_core t = c) (active tunnels) in
  emits (start_event "rathole" (own "rathole"))
        (Main._restore_rathole_servers ms tunnels)
  /\ emits (start_event "backhaul" (own "backhaul"))
           (Main._restore_backhaul_servers ms tunnels)
  /\ emits (start_event "chisel" (own "chisel"))
           (Main._restore_chisel_servers ms tunnels)
  /\ emits (start_event "frp" (own "frp"))
           (Main._restore_frp_servers ms tunnels)
  /\ emits (fun e => exists t args,
                     e = EvStart "gost" (t_id t) args
                     /\ t ∈ active tunnels /\ t_core t = "xray")
           (_restore_forwards gost tunnels).
Proof.
  intros own. repeat split.
  - unfold Main._restore_rathole_servers. apply emits_try_except.
    apply emits_for_each. intros t Ht. own_core Hc.
    unfold deref, int_. repeat emits_step.
    split; [reflexivity|]. apply own_tunnel; assumption.
  - unfold Main._restore_backhaul_servers. apply emits_try_except.
    apply emits_for_each. intros t Ht. own_core Hc.
    unfold deref, int_. repeat emits_step.
    split; [reflexivity|]. apply own_tunnel; assumption.
  - unfold Main._restore_chisel_servers. apply emits_try_except.
    apply emits_for_each. intros t Ht. own_core Hc.
    unfold deref, int_. repeat emits_step.
    all: split; [reflexivity|]; apply own_tunnel; assumption.
  - unfold Main._restore_frp_servers. apply emits_try_except.
    apply emits_for_each. intros t Ht. own_core Hc.
    unfold deref, int_. repeat emits_step.
    split; [reflexivity|]. apply own_tunnel; assumption.
  - unfold _restore_forwards. apply emits_try_except.
    apply emits_for_each. intros t Ht. unfold restore_forward.
    destruct (needs_gost_forwarding t) eqn:Hneed; cbn [negb];
      [|apply emits_silent; intros ?; reflexivity].
    unfold needs_gost_forwarding in Hneed.
    apply andb_true_iff in Hneed as [_ Hc]. apply bool_decide_eq_true in Hc.
    unfold deref, int_. repeat emits_step.
    eexists t, _. split; [reflexivity|]. split; assumption.
Qed.

End RestoreMore.

(** ** Forwards, scheduler and shutdown *)

Module LifecycleFacts.
Import CoreHealth ResetSamples EffectFacts ResetFacts Forwards RegistrationFacts.

Lemma truthy_str_nonempty (x : string) : x <> EmptyString -> truthy (PStr x) = true.
Proof.
  intros Hne. simpl. destruct (String.eqb_spec x EmptyString); [congruence|reflexivity].
Qed.

(** X20. Where a forward goes is never empty: an explicit [forward_to]
    is used as it is, and otherwise the target is [<remote_ip>:<remote_port>]
    with defaults 127.0.0.1 and 8080.  So a tunnel that needs forwarding
    is skipped only for lack of a port (neither [listen_port] nor
    [remote_port]); with a port that reads as an integer exactly one
    forward is started, on that port; a tunnel that does not need
    forwarding records nothing. *)
Theorem forward_restore (gost : Manager) (t : Tunnel) (spec : pydict) (s : st) :
  st_heap s !! t_spec t = Some spec ->
  let panel_port := py_or (get spec "listen_port") (get spec "remote_port") in
  truthy (forward_target spec) = true
  /\ (forall v, spec !! "forward_to" = Some v -> truthy v = true ->
        forward_target spec = v)
  /\ (spec !! "forward_to" = None -> spec !! "remote_ip" = None ->
      spec !! "remote_port" = None ->
      forward_target spec = PStr "127.0.0.1:8080")
  /\ (needs_gost_forwarding t = false -> restore_forward gost t s = (Ok tt, s))
  /\ (needs_gost_forwarding t = true -> truthy panel_port = false ->
      restore_forward gost t s = (Ok tt, s))
  /\ (forall p, needs_gost_forwarding t = true -> truthy panel_port = true ->
        py_int panel_port = Some p ->
        st_log (restore_forward gost t s).2
        = (st_log s
           ++ [EvStart "gost" (t_id t)
                 {[ "local_port" := PInt p;
                    "forward_to" := forward_target spec;
                    "tunnel_type" := PStr (t_type t);
                    "use_ipv6" :=
                      PBool (truthy (get_or spec "use_ipv6" (PBool false))) ]}])%list).
Proof.
  intros Hspec panel_port.
  assert (Htarget : truthy (forward_target spec) = true).
  { unfold forward_target.
    destruct (truthy (get spec "forward_to")) eqn:Hf; simpl negb; cbv iota;
      [exact Hf|].
    apply truthy_str_nonempty. apply append_nonempty.
    rewrite append_cons. discriminate. }
  split; [exact Htarget|]. repeat split.
  - intros v Hv Ht. unfold forward_target, get. rewrite Hv. cbn [default].
    unfold id. rewrite Ht. reflexivity.
  - intros H1 H2 H3. unfold forward_target, get, get_or. rewrite H1, H2, H3.
    reflexivity.
  - intros Hno. unfold restore_forward. rewrite Hno. reflexivity.
  - intros Hyes Hport. unfold restore_forward, bind, deref, get_heap, ret.
    rewrite Hyes. cbn. rewrite Hspec. cbn. fold panel_port. rewrite Hport.
    destruct s; reflexivity.
  - intros p Hyes Hport Hp.
    unfold restore_forward, bind, deref, get_heap, ret, try_except, int_, lift,
      to_int, call_start, emit, raise.
    rewrite Hyes. cbn. rewrite Hspec. cbn. fold panel_port.
    rewrite Hport, Htarget. cbn. rewrite Hp. cbn.
    destruct (start_server gost (t_id t) _); reflexivity.
Qed.

Lemma forward_restore_witness :
  forward_target frp_stored_spec = PStr "127.0.0.1:8080"
  /\ restore_forward quiet_manager frp_tunnel sample_state = (Ok tt, sample_state).
Proof.
  pose proof (forward_restore quiet_manager frp_tunnel frp_stored_spec
                sample_state eq_refl) as (_ & _ & Hdefault & Hskip & _).
  split; [exact (Hdefault eq_refl eq_refl eq_refl)|exact (Hskip eq_refl)].
Defined.

Lemma foldl_fixed {A B} (f : A -> B -> A) (a : A) (l : list B) :
  (forall b, b ∈ l -> f a b = a) -> foldl f a l = a.
Proof.
  induction l as [|b l IH]; intros H; simpl; [reflexivity|].
  rewrite (H b) by left. apply IH. intros b' Hb'. apply H. right. exact Hb'.
Qed.

(** X21. A wake-up of the scheduler at which no enabled row is due (its
    next reset is null or still ahead) resets nothing: the table of
    configurations and the state are left exactly as they were. *)
Theorem scheduler_idle
    (app : AppState) (env : Env) (tunnels : list Tunnel) (now : Z)
    (configs : gmap string CoreResetConfig) (s : st) :
  (forall k config nr, configs !! k = Some config -> enabled config = true ->
      next_reset config = Some nr -> now < nr) ->
  Main.scheduler_iteration app env tunnels now configs s = (configs, s).
Proof.
  intros Hidle. unfold Main.scheduler_iteration. apply foldl_fixed.
  intros [k config] Hin. apply elem_of_map_to_list in Hin.
  apply map_lookup_filter_Some in Hin as [Hrow Hen]. cbn [fst snd] in *.
  assert (Hstep : Main.scheduler_step app env tunnels now config s = (Ok config, s)).
  { unfold Main.scheduler_step.
    destruct (next_reset config) as [nr|] eqn:Hnr; [|reflexivity].
    pose proof (Hidle k config nr Hrow Hen Hnr).
    destruct (nr <=? now) eqn:E; [lia|reflexivity]. }
  rewrite Hstep. rewrite insert_id by exact Hrow. reflexivity.
Qed.

Lemma scheduler_idle_witness :
  Main.scheduler_iteration (app_with quiet_manager) quiet_env [] 5
    {[ "frp" := ten_minutes ]} empty_state
  = ({[ "frp" := ten_minutes ]}, empty_state).
Proof.
  apply scheduler_idle. intros k config nr Hrow _ Hnr.
  destruct (decide (k = "frp")) as [->|Hne].
  - vm_compute in Hrow. injection Hrow as <-. vm_compute in Hnr.
    injection Hnr as <-. reflexivity.
  - rewrite lookup_singleton_ne in Hrow by congruence. discriminate.
Defined.

(** X22. A firing moves the next reset strictly ahead: with an interval
    of at least one minute, the row written by a firing at time [now] is
    not due again at any time before [now] plus the interval, and the
    scheduler leaves it and the state alone until then. *)
Theorem fired_row_rests
    (app : AppState) (env : Env) (tunnels : list Tunnel) (now now' : Z)
    (config : CoreResetConfig) (s : st) :
  1 <= interval_minutes config ->
  now' < now + minutes (interval_minutes config) ->
  next_reset (Main.fire now config)
  = Some (now + minutes (interval_minutes config))
  /\ now < now + minutes (interval_minutes config)
  /\ Main.scheduler_step app env tunnels now' (Main.fire now config) s
     = (Ok (Main.fire now config), s).
Proof.
  intros Hint Hearly. split; [reflexivity|]. split; [unfold minutes; lia|].
  unfold Main.scheduler_step. cbn [next_reset Main.fire].
  destruct (now + minutes (interval_minutes config) <=? now') eqn:E; [lia|].
  reflexivity.
Qed.

Lemma fired_row_rests_witness :
  Main.scheduler_step (app_with quiet_manager) quiet_env [] 1000
    (Main.fire 1000 ten_minutes) empty_state
  = (Ok (Main.fire 1000 ten_minutes), empty_state).
Proof.
  refine (proj2 (proj2 (fired_row_rests (app_with quiet_manager) quiet_env []
                          1000 1000 ten_minutes empty_state _ _))).
  - vm_compute. discriminate.
  - vm_compute. reflexivity.
Defined.



(** X24. The shutdown does not guard its steps.  When the awaited reset
    task ends with an exception that is not the cancellation, the
    shutdown raises it after the wait; when stopping the h2 server
    raises, the shutdown ends there; when the forwarder's cleanup raises,
    it ends there: in each case none of the later managers is cleaned
    up. *)
Theorem shutdown_stops_at_first_failure (o : Main.ShutdownOracle) (s : st) :
  (forall e, Main.await_reset_task o = Some e -> e <> CancelledError ->
     exists s', Main.shutdown true true o s = (Raise e, s')
                /\ st_log s' = (st_log s ++ [EvCancel; EvAwait])%list)
  /\ ((Main.await_reset_task o = None
       \/ Main.await_reset_task o = Some CancelledError) ->
      (Main.h2_stop_raises o = true ->
       exists e s', Main.shutdown true true o s = (Raise e, s')
                    /\ st_log s' = (st_log s ++ [EvCancel; EvAwait; EvH2Stop])%list)
      /\ (Main.h2_stop_raises o = false ->
          Main.cleanup_raises o "gost_forwarder" = true ->
          exists e s', Main.shutdown true true o s = (Raise e, s')
                       /\ st_log s'
                          = (st_log s ++ [EvCancel; EvAwait; EvH2Stop;
                                          EvCleanup "gost_forwarder"])%list)).
Proof.
  unfold Main.shutdown, Main.cleanup_all, bind, emit, ret, raise. split.
  - intros e He Hne. rewrite He. cbn.
    destruct e; try congruence; cbn; eexists; (split; [reflexivity|]);
      cbn; rewrite <- ?app_assoc; reflexivity.
  - intros Hawait. split.
    + intros Hh2. rewrite Hh2. destruct Hawait as [-> | ->]; cbn;
        eexists _, _; (split; [reflexivity|]); cbn;
        rewrite <- ?app_assoc; reflexivity.
    + intros Hh2 Hg. rewrite Hh2, Hg. destruct Hawait as [-> | ->]; cbn;
        eexists _, _; (split; [reflexivity|]); cbn;
        rewrite <- ?app_assoc; reflexivity.
Qed.

Lemma shutdown_stops_at_first_failure_witness :
  let o := {| Main.await_reset_task := None; Main.h2_stop_raises := true;
              Main.cleanup_raises := fun _ => false |} in
  exists e s', Main.shutdown true true o empty_state = (Raise e, s')
               /\ st_log s' = [EvCancel; EvAwait; EvH2Stop].
Proof.
  intros o.
  destruct (proj1 (proj2 (shutdown_stops_at_first_failure o empty_state)
                     (or_introl eq_refl)) eq_refl)
    as (e & s' & Hrun & Hlog).
  exists e, s'. split; [exact Hrun|exact Hlog].
Defined.

End LifecycleFacts.
